(** * Binaural Dreamscapes: the tone generator of [app.py]

    A shallow embedding of the audio part of [app.py]: the module globals
    that hold the tone parameters, the handlers that write them, the stream
    start/stop handlers, the audio callback and the waveform plot.

    Numbers.  The parameters are Python floats.  Every finite float is a
    rational, and comparisons between floats are comparisons between those
    rationals, so the stored parameters are modelled as [Q] and the range
    checks are exact.  The trigonometric part is stated over the real numbers
    [R]: [np.sin], [np.pi], [*], [/] and [%] are read as the exact real
    operations on the numbers the floats are.  Rounding is not modelled.  It
    matters at one place, the wrap of [%] in the callback: the float product
    of the driver time and the sampling rate is rounded before the remainder
    is taken, and a product next to a whole number of seconds can fall on
    either side of it.  The statements that depend on the side of the wrap
    are therefore made for driver times, doubles, whose product with the
    sampling rate is a whole number exactly: there the float operations are
    exact too.

    Widgets.  A Tk widget is modelled by the value it holds ([Entry]: its
    text, [Scale]: its position, [Button]: its state).  [Scale.set] is
    modelled as Tk does it: the value is clipped to the range of the scale,
    stored, and the command of the scale is called on it. *)

From Stdlib Require Import ZArith QArith Qround Reals Qreals Lra Lia List String Bool.
From Stdlib Require Lqa.
Import ListNotations.

Set Implicit Arguments.

Local Open Scope Q_scope.

(** ** Python values *)

(** A Python float: finite, an infinity, or not-a-number. *)
Inductive pyfloat : Type :=
| Finite (q : Q)
| Infinity (negative : bool)
| NaN.

(** The text of an entry field, up to what [float()] makes of it: a numeral
    or anything else. *)
Inductive text : Type :=
| Numeral (x : pyfloat)
| Other (s : string).

Inductive exception : Type :=
| ValueError
| PortAudioError.

(** The result of a call that may raise. *)
Inductive outcome (A : Type) : Type :=
| Returned (a : A)
| Raised (e : exception).

Arguments Returned {A} a.
Arguments Raised {A} e.

(** [float(s)]: [None] stands for the [ValueError] raised on a text that is
    not a numeral. *)
Definition float (s : text) : option pyfloat :=
  match s with
  | Numeral x => Some x
  | Other _ => None
  end.

(** [int(x)] on a finite float: truncation towards zero. *)
Definition int (x : Q) : Z := Z.quot (Qnum x) (Zpos (Qden x)).

(** Rounding to the nearest integer, ties to even. *)
Definition round_half_even (x : Q) : Z :=
  let n := Qfloor x in
  match Qcompare (x - inject_Z n) (1 # 2) with
  | Lt => n
  | Gt => (n + 1)%Z
  | Eq => if Z.even n then n else (n + 1)%Z
  end.

(** The value shown by the format [f"{x:.1f}"]: [x] rounded to one decimal. *)
Definition format_1f (x : Q) : Q := inject_Z (round_half_even (x * 10)) / 10.

(** The chained comparison [lo <= x <= hi]. *)
Definition between (lo x hi : Q) : bool := Qle_bool lo x && Qle_bool x hi.

(** ** The state of the module *)

(** [sd.OutputStream]: the settings it was opened with and whether it runs. *)
Record OutputStream : Type := {
  samplerate : positive;
  channels : nat;
  blocksize : nat;
  active : bool
}.

Inductive button_state : Type := normal | disabled.

Inductive dialog : Type :=
| showerror (title message : string)
| showinfo (title message : string).

(** A row of the table [configurations]. *)
Record configuration : Type := {
  config_id : Z;
  config_name : string;
  config_frequency_left : Q;
  config_frequency_right : Q;
  config_phase_left : Q;
  config_phase_right : Q;
  config_volume : Q
}.

(** What the two axes of the canvas show: the parameters the curves were
    computed from (the curves themselves are [waveforms] below). *)
Record plot : Type := {
  plot_frequency_left : Q;
  plot_frequency_right : Q;
  plot_phase_left : Q;
  plot_phase_right : Q
}.

(** The module globals (parameters, stream, widgets), the dialogs shown so
    far and the rows of the database. *)
Record App : Type := {
  volume : Q;
  frequency_left : Q;
  frequency_right : Q;
  phase_left : Q;
  phase_right : Q;
  stream : option OutputStream;
  volume_value_label : option Z;
  frequency_left_entry : text;
  frequency_right_entry : text;
  phase_left_entry : text;
  phase_right_entry : text;
  frequency_left_slider : Q;
  frequency_right_slider : Q;
  phase_left_slider : Q;
  phase_right_slider : Q;
  volume_slider : Q;
  start_button : button_state;
  stop_button : button_state;
  canvas : option plot;
  dialogs : list dialog;
  configurations : list configuration
}.

(** The five tone parameters, in the order of a saved configuration. *)
Definition parameters (st : App) : Q * Q * Q * Q * Q :=
  (frequency_left st, frequency_right st, phase_left st, phase_right st,
   volume st).

(** Assignments to one global or one widget. *)
Definition set_volume (v : Q) (a : App) : App :=
  Build_App v (frequency_left a) (frequency_right a) (phase_left a)
    (phase_right a) (stream a) (volume_value_label a) (frequency_left_entry a)
    (frequency_right_entry a) (phase_left_entry a) (phase_right_entry a)
    (frequency_left_slider a) (frequency_right_slider a) (phase_left_slider a)
    (phase_right_slider a) (volume_slider a) (start_button a) (stop_button a)
    (canvas a) (dialogs a) (configurations a).

Definition set_frequency_left (v : Q) (a : App) : App :=
  Build_App (volume a) v (frequency_right a) (phase_left a)
    (phase_right a) (stream a) (volume_value_label a) (frequency_left_entry a)
    (frequency_right_entry a) (phase_left_entry a) (phase_right_entry a)
    (frequency_left_slider a) (frequency_right_slider a) (phase_left_slider a)
    (phase_right_slider a) (volume_slider a) (start_button a) (stop_button a)
    (canvas a) (dialogs a) (configurations a).

Definition set_frequency_right (v : Q) (a : App) : App :=
  Build_App (volume a) (frequency_left a) v (phase_left a)
    (phase_right a) (stream a) (volume_value_label a) (frequency_left_entry a)
    (frequency_right_entry a) (phase_left_entry a) (phase_right_entry a)
    (frequency_left_slider a) (frequency_right_slider a) (phase_left_slider a)
    (phase_right_slider a) (volume_slider a) (start_button a) (stop_button a)
    (canvas a) (dialogs a) (configurations a).

Definition set_phase_left (v : Q) (a : App) : App :=
  Build_App (volume a) (frequency_left a) (frequency_right a) v
    (phase_right a) (stream a) (volume_value_label a) (frequency_left_entry a)
    (frequency_right_entry a) (phase_left_entry a) (phase_right_entry a)
    (frequency_left_slider a) (frequency_right_slider a) (phase_left_slider a)
    (phase_right_slider a) (volume_slider a) (start_button a) (stop_button a)
    (canvas a) (dialogs a) (configurations a).

Definition set_phase_right (v : Q) (a : App) : App :=
  Build_App (volume a) (frequency_left a) (frequency_right a) (phase_left a)
    v (stream a) (volume_value_label a) (frequency_left_entry a)
    (frequency_right_entry a) (phase_left_entry a) (phase_right_entry a)
    (frequency_left_slider a) (frequency_right_slider a) (phase_left_slider a)
    (phase_right_slider a) (volume_slider a) (start_button a) (stop_button a)
    (canvas a) (dialogs a) (configurations a).

Definition set_stream (v : option OutputStream) (a : App) : App :=
  Build_App (volume a) (frequency_left a) (frequency_right a) (phase_left a)
    (phase_right a) v (volume_value_label a) (frequency_left_entry a)
    (frequency_right_entry a) (phase_left_entry a) (phase_right_entry a)
    (frequency_left_slider a) (frequency_right_slider a) (phase_left_slider a)
    (phase_right_slider a) (volume_slider a) (start_button a) (stop_button a)
    (canvas a) (dialogs a) (configurations a).

Definition set_volume_value_label (v : option Z) (a : App) : App :=
  Build_App (volume a) (frequency_left a) (frequency_right a) (phase_left a)
    (phase_right a) (stream a) v (frequency_left_entry a)
    (frequency_right_entry a) (phase_left_entry a) (phase_right_entry a)
    (frequency_left_slider a) (frequency_right_slider a) (phase_left_slider a)
    (phase_right_slider a) (volume_slider a) (start_button a) (stop_button a)
    (canvas a) (dialogs a) (configurations a).

Definition set_frequency_left_entry (v : text) (a : App) : App :=
  Build_App (volume a) (frequency_left a) (frequency_right a) (phase_left a)
    (phase_right a) (stream a) (volume_value_label a) v
    (frequency_right_entry a) (phase_left_entry a) (phase_right_entry a)
    (frequency_left_slider a) (frequency_right_slider a) (phase_left_slider a)
    (phase_right_slider a) (volume_slider a) (start_button a) (stop_button a)
    (canvas a) (dialogs a) (configurations a).

Definition set_frequency_right_entry (v : text) (a : App) : App :=
  Build_App (volume a) (frequency_left a) (frequency_right a) (phase_left a)
    (phase_right a) (stream a) (volume_value_label a) (frequency_left_entry a)
    v (phase_left_entry a) (phase_right_entry a)
    (frequency_left_slider a) (frequency_right_slider a) (phase_left_slider a)
    (phase_right_slider a) (volume_slider a) (start_button a) (stop_button a)
    (canvas a) (dialogs a) (configurations a).

Definition set_phase_left_entry (v : text) (a : App) : App :=
  Build_App (volume a) (frequency_left a) (frequency_right a) (phase_left a)
    (phase_right a) (stream a) (volume_value_label a) (frequency_left_entry a)
    (frequency_right_entry a) v (phase_right_entry a)
    (frequency_left_slider a) (frequency_right_slider a) (phase_left_slider a)
    (phase_right_slider a) (volume_slider a) (start_button a) (stop_button a)
    (canvas a) (dialogs a) (configurations a).

Definition set_phase_right_entry (v : text) (a : App) : App :=
  Build_App (volume a) (frequency_left a) (frequency_right a) (phase_left a)
    (phase_right a) (stream a) (volume_value_label a) (frequency_left_entry a)
    (frequency_right_entry a) (phase_left_entry a) v
    (frequency_left_slider a) (frequency_right_slider a) (phase_left_slider a)
    (phase_right_slider a) (volume_slider a) (start_button a) (stop_button a)
    (canvas a) (dialogs a) (configurations a).

Definition set_frequency_left_slider (v : Q) (a : App) : App :=
  Build_App (volume a) (frequency_left a) (frequency_right a) (phase_left a)
    (phase_right a) (stream a) (volume_value_label a) (frequency_left_entry a)
    (frequency_right_entry a) (phase_left_entry a) (phase_right_entry a)
    v (frequency_right_slider a) (phase_left_slider a)
    (phase_right_slider a) (volume_slider a) (start_button a) (stop_button a)
    (canvas a) (dialogs a) (configurations a).

Definition set_frequency_right_slider (v : Q) (a : App) : App :=
  Build_App (volume a) (frequency_left a) (frequency_right a) (phase_left a)
    (phase_right a) (stream a) (volume_value_label a) (frequency_left_entry a)
    (frequency_right_entry a) (phase_left_entry a) (phase_right_entry a)
    (frequency_left_slider a) v (phase_left_slider a)
    (phase_right_slider a) (volume_slider a) (start_button a) (stop_button a)
    (canvas a) (dialogs a) (configurations a).

Definition set_phase_left_slider (v : Q) (a : App) : App :=
  Build_App (volume a) (frequency_left a) (frequency_right a) (phase_left a)
    (phase_right a) (stream a) (volume_value_label a) (frequency_left_entry a)
    (frequency_right_entry a) (phase_left_entry a) (phase_right_entry a)
    (frequency_left_slider a) (frequency_right_slider a) v
    (phase_right_slider a) (volume_slider a) (start_button a) (stop_button a)
    (canvas a) (dialogs a) (configurations a).

Definition set_phase_right_slider (v : Q) (a : App) : App :=
  Build_App (volume a) (frequency_left a) (frequency_right a) (phase_left a)
    (phase_right a) (stream a) (volume_value_label a) (frequency_left_entry a)
    (frequency_right_entry a) (phase_left_entry a) (phase_right_entry a)
    (frequency_left_slider a) (frequency_right_slider a) (phase_left_slider a)
    v (volume_slider a) (start_button a) (stop_button a)
    (canvas a) (dialogs a) (configurations a).

Definition set_volume_slider (v : Q) (a : App) : App :=
  Build_App (volume a) (frequency_left a) (frequency_right a) (phase_left a)
    (phase_right a) (stream a) (volume_value_label a) (frequency_left_entry a)
    (frequency_right_entry a) (phase_left_entry a) (phase_right_entry a)
    (frequency_left_slider a) (frequency_right_slider a) (phase_left_slider a)
    (phase_right_slider a) v (start_button a) (stop_button a)
    (canvas a) (dialogs a) (configurations a).

Definition set_start_button (v : button_state) (a : App) : App :=
  Build_App (volume a) (frequency_left a) (frequency_right a) (phase_left a)
    (phase_right a) (stream a) (volume_value_label a) (frequency_left_entry a)
    (frequency_right_entry a) (phase_left_entry a) (phase_right_entry a)
    (frequency_left_slider a) (frequency_right_slider a) (phase_left_slider a)
    (phase_right_slider a) (volume_slider a) v (stop_button a)
    (canvas a) (dialogs a) (configurations a).

Definition set_stop_button (v : button_state) (a : App) : App :=
  Build_App (volume a) (frequency_left a) (frequency_right a) (phase_left a)
    (phase_right a) (stream a) (volume_value_label a) (frequency_left_entry a)
    (frequency_right_entry a) (phase_left_entry a) (phase_right_entry a)
    (frequency_left_slider a) (frequency_right_slider a) (phase_left_slider a)
    (phase_right_slider a) (volume_slider a) (start_button a) v
    (canvas a) (dialogs a) (configurations a).

Definition set_canvas (v : option plot) (a : App) : App :=
  Build_App (volume a) (frequency_left a) (frequency_right a) (phase_left a)
    (phase_right a) (stream a) (volume_value_label a) (frequency_left_entry a)
    (frequency_right_entry a) (phase_left_entry a) (phase_right_entry a)
    (frequency_left_slider a) (frequency_right_slider a) (phase_left_slider a)
    (phase_right_slider a) (volume_slider a) (start_button a) (stop_button a)
    v (dialogs a) (configurations a).

Definition set_dialogs (v : list dialog) (a : App) : App :=
  Build_App (volume a) (frequency_left a) (frequency_right a) (phase_left a)
    (phase_right a) (stream a) (volume_value_label a) (frequency_left_entry a)
    (frequency_right_entry a) (phase_left_entry a) (phase_right_entry a)
    (frequency_left_slider a) (frequency_right_slider a) (phase_left_slider a)
    (phase_right_slider a) (volume_slider a) (start_button a) (stop_button a)
    (canvas a) v (configurations a).

Definition set_configurations (v : list configuration) (a : App) : App :=
  Build_App (volume a) (frequency_left a) (frequency_right a) (phase_left a)
    (phase_right a) (stream a) (volume_value_label a) (frequency_left_entry a)
    (frequency_right_entry a) (phase_left_entry a) (phase_right_entry a)
    (frequency_left_slider a) (frequency_right_slider a) (phase_left_slider a)
    (phase_right_slider a) (volume_slider a) (start_button a) (stop_button a)
    (canvas a) (dialogs a) v.

(** [messagebox.showerror] and [messagebox.showinfo]: the dialog is appended
    to the ones shown so far. *)
Definition messagebox (d : dialog) (st : App) : App :=
  set_dialogs (dialogs st ++ [d]) st.

(** The text an entry holds after [insert(0, f"{x:.1f}")] on an emptied
    entry. *)
Definition shown_1f (x : Q) : text := Numeral (Finite (format_1f x)).

(** [plot_waveforms()] as the handlers see it: both axes are cleared and
    redrawn from the current frequencies and phases. *)
Definition plot_waveforms (st : App) : App :=
  set_canvas
    (Some {| plot_frequency_left := frequency_left st;
             plot_frequency_right := frequency_right st;
             plot_phase_left := phase_left st;
             plot_phase_right := phase_right st |}) st.

(** ** Frequency and phase handlers *)

(** What a [Scale] makes of a value it is set to: values below [lo] become
    [lo], values above [hi] become [hi]. *)
Definition clip (lo v hi : Q) : Q :=
  if Qle_bool lo v then (if Qle_bool v hi then v else hi) else lo.

(** The [except ValueError] branch of [update_frequency_left];
    [slider_set] is [frequency_left_slider.set]. *)
Definition reject_frequency_left_with
    (slider_set : Q -> App -> App) (st : App) : App :=
  let st :=
    messagebox
      (showerror "Invalid Value"
         "Please enter a valid number between 1 and 20000 for Frequency Left.")
      st in
  let st := set_frequency_left_entry (shown_1f (frequency_left st)) st in
  slider_set (frequency_left st) st.

(** The body of [update_frequency_left(from_slider, event)].  The [try]
    block raises [ValueError] when [float()] fails and when the range test is
    false; the test is false for nan and for the infinities. *)
Definition update_frequency_left_with
    (slider_set : Q -> App -> App) (from_slider : bool) (st : App) : App :=
  match float (frequency_left_entry st) with
  | Some (Finite new_frequency) =>
      if between 1 new_frequency 20000 then
        let st := set_frequency_left new_frequency st in
        let st :=
          if negb from_slider
          then slider_set (frequency_left st) st
          else st in
        plot_waveforms st
      else reject_frequency_left_with slider_set st
  | _ => reject_frequency_left_with slider_set st
  end.

(** [frequency_left_slider.set(v)]: the scale (from 1 to 20000) stores the
    clipped value and calls its command, [update_frequency_left_slider], on
    it: the entry is rewritten with one decimal and the handler runs with
    [from_slider] true.  [depth] bounds the nesting of commands inside
    commands; [frequency_left_slider_set_depth] below shows that one level
    is all there is. *)
Fixpoint frequency_left_slider_set_at (depth : nat) (v : Q) (st : App) : App :=
  let v := clip 1 v 20000 in
  let st := set_frequency_left_slider v st in
  match depth with
  | O => st
  | S depth =>
      update_frequency_left_with (frequency_left_slider_set_at depth) true
        (set_frequency_left_entry (shown_1f v) st)
  end.

Definition frequency_left_slider_set : Q -> App -> App :=
  frequency_left_slider_set_at 1.

Definition reject_frequency_left : App -> App :=
  reject_frequency_left_with frequency_left_slider_set.

(** [update_frequency_left(from_slider, event)]. *)
Definition update_frequency_left : bool -> App -> App :=
  update_frequency_left_with frequency_left_slider_set.

Definition reject_frequency_right_with
    (slider_set : Q -> App -> App) (st : App) : App :=
  let st :=
    messagebox
      (showerror "Invalid Value"
         "Please enter a valid number between 1 and 20000 for Frequency Right.")
      st in
  let st := set_frequency_right_entry (shown_1f (frequency_right st)) st in
  slider_set (frequency_right st) st.

Definition update_frequency_right_with
    (slider_set : Q -> App -> App) (from_slider : bool) (st : App) : App :=
  match float (frequency_right_entry st) with
  | Some (Finite new_frequency) =>
      if between 1 new_frequency 20000 then
        let st := set_frequency_right new_frequency st in
        let st :=
          if negb from_slider
          then slider_set (frequency_right st) st
          else st in
        plot_waveforms st
      else reject_frequency_right_with slider_set st
  | _ => reject_frequency_right_with slider_set st
  end.

(** [frequency_right_slider.set(v)]. *)
Fixpoint frequency_right_slider_set_at (depth : nat) (v : Q) (st : App) : App :=
  let v := clip 1 v 20000 in
  let st := set_frequency_right_slider v st in
  match depth with
  | O => st
  | S depth =>
      update_frequency_right_with (frequency_right_slider_set_at depth) true
        (set_frequency_right_entry (shown_1f v) st)
  end.

Definition frequency_right_slider_set : Q -> App -> App :=
  frequency_right_slider_set_at 1.

Definition reject_frequency_right : App -> App :=
  reject_frequency_right_with frequency_right_slider_set.

(** [update_frequency_right(from_slider, event)]. *)
Definition update_frequency_right : bool -> App -> App :=
  update_frequency_right_with frequency_right_slider_set.

Definition reject_phase_left_with
    (slider_set : Q -> App -> App) (st : App) : App :=
  let st :=
    messagebox
      (showerror "Invalid Value"
         "Please enter a valid number between 0 and 360 for Phase Left.")
      st in
  let st := set_phase_left_entry (shown_1f (phase_left st)) st in
  slider_set (phase_left st) st.

Definition update_phase_left_with
    (slider_set : Q -> App -> App) (from_slider : bool) (st : App) : App :=
  match float (phase_left_entry st) with
  | Some (Finite new_phase) =>
      if between 0 new_phase 360 then
        let st := set_phase_left new_phase st in
        let st :=
          if negb from_slider
          then slider_set (phase_left st) st
          else st in
        plot_waveforms st
      else reject_phase_left_with slider_set st
  | _ => reject_phase_left_with slider_set st
  end.

(** [phase_left_slider.set(v)]: the scale goes from 0 to 360. *)
Fixpoint phase_left_slider_set_at (depth : nat) (v : Q) (st : App) : App :=
  let v := clip 0 v 360 in
  let st := set_phase_left_slider v st in
  match depth with
  | O => st
  | S depth =>
      update_phase_left_with (phase_left_slider_set_at depth) true
        (set_phase_left_entry (shown_1f v) st)
  end.

Definition phase_left_slider_set : Q -> App -> App :=
  phase_left_slider_set_at 1.

Definition reject_phase_left : App -> App :=
  reject_phase_left_with phase_left_slider_set.

(** [update_phase_left(from_slider, event)]. *)
Definition update_phase_left : bool -> App -> App :=
  update_phase_left_with phase_left_slider_set.

Definition reject_phase_right_with
    (slider_set : Q -> App -> App) (st : App) : App :=
  let st :=
    messagebox
      (showerror "Invalid Value"
         "Please enter a valid number between 0 and 360 for Phase Right.")
      st in
  let st := set_phase_right_entry (shown_1f (phase_right st)) st in
  slider_set (phase_right st) st.

Definition update_phase_right_with
    (slider_set : Q -> App -> App) (from_slider : bool) (st : App) : App :=
  match float (phase_right_entry st) with
  | Some (Finite new_phase) =>
      if between 0 new_phase 360 then
        let st := set_phase_right new_phase st in
        let st :=
          if negb from_slider
          then slider_set (phase_right st) st
          else st in
        plot_waveforms st
      else reject_phase_right_with slider_set st
  | _ => reject_phase_right_with slider_set st
  end.

(** [phase_right_slider.set(v)]. *)
Fixpoint phase_right_slider_set_at (depth : nat) (v : Q) (st : App) : App :=
  let v := clip 0 v 360 in
  let st := set_phase_right_slider v st in
  match depth with
  | O => st
  | S depth =>
      update_phase_right_with (phase_right_slider_set_at depth) true
        (set_phase_right_entry (shown_1f v) st)
  end.

Definition phase_right_slider_set : Q -> App -> App :=
  phase_right_slider_set_at 1.

Definition reject_phase_right : App -> App :=
  reject_phase_right_with phase_right_slider_set.

(** [update_phase_right(from_slider, event)]. *)
Definition update_phase_right : bool -> App -> App :=
  update_phase_right_with phase_right_slider_set.

(** The slider commands: Tk passes the position [val]; the entry is
    rewritten with one decimal and the field handler runs on it. *)
Definition update_frequency_left_slider (val : Q) (st : App) : App :=
  update_frequency_left true (set_frequency_left_entry (shown_1f val) st).

Definition update_frequency_right_slider (val : Q) (st : App) : App :=
  update_frequency_right true (set_frequency_right_entry (shown_1f val) st).

Definition update_phase_left_slider (val : Q) (st : App) : App :=
  update_phase_left true (set_phase_left_entry (shown_1f val) st).

Definition update_phase_right_slider (val : Q) (st : App) : App :=
  update_phase_right true (set_phase_right_entry (shown_1f val) st).

(** ** Volume *)

(** [update_volume(val)]: the percentage is divided by 100 and stored; the
    label, when it exists, shows the truncated percentage. *)
Definition update_volume (val : Q) (st : App) : App :=
  let st := set_volume (val / 100) st in
  match volume_value_label st with
  | Some _ => set_volume_value_label (Some (int val)) st
  | None => st
  end.

(** [volume_slider.set(v)]: the scale (from 0 to 100) stores the clipped
    value and calls its command, [update_volume], on it. *)
Definition volume_slider_set (v : Q) (st : App) : App :=
  let v := clip 0 v 100 in
  update_volume v (set_volume_slider v st).

(** ** Saved configurations *)

(** The rowid SQLite gives to a new row: 1 in an empty table, otherwise one
    more than the largest one.  (When the largest is 2^63 - 1 SQLite looks
    for an unused rowid at random; that case is not described.) *)
Definition next_id (rows : list configuration) : Z :=
  match map config_id rows with
  | [] => 1%Z
  | i :: ids => (fold_right Z.max i ids + 1)%Z
  end.

(** The inner function [save()] of [save_configuration], on the text of
    the name entry.  [IntegrityError] is the violation of [name TEXT UNIQUE]. *)
Definition save (name : string) (st : App) : App :=
  if String.eqb name "" then
    messagebox
      (showerror "Error" "Please enter a name for the configuration.") st
  else if existsb (fun c => String.eqb (config_name c) name)
            (configurations st) then
    messagebox
      (showerror "Error"
         ("A configuration with the name '" ++ name ++ "' already exists."))
      st
  else
    let st :=
      set_configurations
        (List.app (configurations st)
           [ {| config_id := next_id (configurations st);
                config_name := name;
                config_frequency_left := frequency_left st;
                config_frequency_right := frequency_right st;
                config_phase_left := phase_left st;
                config_phase_right := phase_right st;
                config_volume := volume st |} ]) st in
    messagebox
      (showinfo "Success"
         ("Configuration '" ++ name ++ "' saved successfully.")) st.

(** [update_ui_values()]: every [set] of a slider runs the command of
    that slider.  The number on the volume label is the whole part of the
    product [volume * 100]; the float product can be just below the exact
    one (0.29 * 100 is 28.999999999999996), and no statement below speaks
    of the label after [update_ui_values]. *)
Definition update_ui_values (st : App) : App :=
  let st := set_frequency_left_entry (shown_1f (frequency_left st)) st in
  let st := frequency_left_slider_set (frequency_left st) st in
  let st := set_frequency_right_entry (shown_1f (frequency_right st)) st in
  let st := frequency_right_slider_set (frequency_right st) st in
  let st := set_phase_left_entry (shown_1f (phase_left st)) st in
  let st := phase_left_slider_set (phase_left st) st in
  let st := set_phase_right_entry (shown_1f (phase_right st)) st in
  let st := phase_right_slider_set (phase_right st) st in
  let st := volume_slider_set (volume st * 100) st in
  let st :=
    match volume_value_label st with
    | Some _ => set_volume_value_label (Some (int (volume st * 100))) st
    | None => st
    end in
  plot_waveforms st.

(** The inner function [load_selected_config()] of [load_configuration]:
    [listbox] holds the names read when the dialog was opened, [selection]
    is [listbox.curselection()]. *)
Definition load_selected_config
    (listbox : list string) (selection : list nat) (st : App) : App :=
  match selection with
  | i :: _ =>
      let name := nth i listbox ""%string in
      match find (fun c => String.eqb (config_name c) name)
              (configurations st) with
      | Some config =>
          let st := set_frequency_left (config_frequency_left config) st in
          let st := set_frequency_right (config_frequency_right config) st in
          let st := set_phase_left (config_phase_left config) st in
          let st := set_phase_right (config_phase_right config) st in
          let st := set_volume (config_volume config) st in
          update_ui_values st
      | None => st
      end
  | [] =>
      messagebox
        (showerror "Error" "Please select a configuration to load.") st
  end.

(** The order in which [SELECT name FROM configurations] answers: SQLite
    reads the names from the index of the [UNIQUE] column, smallest first in
    the order of their bytes. *)
Fixpoint insert_name (name : string) (sorted : list string) : list string :=
  match sorted with
  | [] => [name]
  | n :: rest =>
      if String.leb name n then name :: sorted
      else n :: insert_name name rest
  end.

Definition name_order (names : list string) : list string :=
  fold_right insert_name [] names.

(** [load_configuration()] up to the creation of the dialog: the names put
    in the list box, or no dialog when nothing is saved. *)
Definition load_configuration (st : App) : App * option (list string) :=
  match configurations st with
  | [] =>
      (messagebox
         (showinfo "No Configurations" "There are no saved configurations.")
         st, None)
  | _ :: _ => (st, Some (name_order (map config_name (configurations st))))
  end.

(** The state when the main loop starts, on a database holding [rows]:
    the module-level assignments and the widget set-up at the end of
    [app.py]. *)
Definition initial (rows : list configuration) : App :=
  {| volume := 0.2;
     frequency_left := 100;
     frequency_right := 104;
     phase_left := 0;
     phase_right := 0;
     stream := None;
     volume_value_label := Some (int (0.2 * 100));
     frequency_left_entry := Numeral (Finite 100);
     frequency_right_entry := Numeral (Finite 104);
     phase_left_entry := Numeral (Finite 0);
     phase_right_entry := Numeral (Finite 0);
     frequency_left_slider := 100;
     frequency_right_slider := 104;
     phase_left_slider := 0;
     phase_right_slider := 0;
     volume_slider := 0.2 * 100;
     start_button := normal;
     stop_button := disabled;
     canvas :=
       Some {| plot_frequency_left := 100; plot_frequency_right := 104;
               plot_phase_left := 0; plot_phase_right := 0 |};
     dialogs := [];
     configurations := rows |}.

(** ** Range of the parameters *)

(** The ranges the handlers enforce: frequencies in [1, 20000], phases in
    [0, 360], and the volume in [0, 1]. *)
Definition in_range (st : App) : bool :=
  between 1 (frequency_left st) 20000
  && between 1 (frequency_right st) 20000
  && between 0 (phase_left st) 360
  && between 0 (phase_right st) 360
  && between 0 (volume st) 1.

(** ** Stream, callback and plot *)

(** How the audio device answers when a stream is opened and started. *)
Inductive device : Type :=
| device_ok
| open_fails
| start_fails.

Section Audio.

(** [sampling_rate], in Hz.  The module sets it to 44100 and never assigns
    it again; the definitions are written for any positive rate. *)
Variable sampling_rate : positive.

Definition buffer_size : nat := 1024 * 2.

(** [start_stream()].  [sd.OutputStream(...)] and [stream.start()] raise
    [PortAudioError] when the device refuses; nothing catches it. *)
Definition start_stream (dev : device) (st : App) : App * option exception :=
  if match stream st with
     | None => true
     | Some s => negb (active s)
     end
  then
    let opened :=
      {| samplerate := sampling_rate; channels := 2;
         blocksize := buffer_size; active := false |} in
    match dev with
    | open_fails => (st, Some PortAudioError)
    | start_fails => (set_stream (Some opened) st, Some PortAudioError)
    | device_ok =>
        let st :=
          set_stream
            (Some {| samplerate := sampling_rate; channels := 2;
                     blocksize := buffer_size; active := true |}) st in
        let st := set_start_button disabled st in
        (set_stop_button normal st, None)
    end
  else (st, None).

(** [stop_stream()]. *)
Definition stop_stream (st : App) : App :=
  match stream st with
  | Some s =>
      if active s then
        let st :=
          set_stream
            (Some {| samplerate := samplerate s; channels := channels s;
                     blocksize := blocksize s; active := false |}) st in
        let st := set_start_button normal st in
        set_stop_button disabled st
      else st
  | None => st
  end.

Local Open Scope R_scope.

(** [np.arange(n)]. *)
Definition arange (n : nat) : list R := map INR (seq 0 n).

(** [x % y] on floats: the remainder of the floored division, exact on
    the two numbers it is given. *)
Definition remainder (x y : R) : R := x - IZR (Int_part (x / y)) * y.

(** The shape rule of an assignment [a[:, k] = v] to a column of [rows]
    elements: [v] has that many elements, or one element which is repeated;
    anything else is a [ValueError]. *)
Definition broadcast (v : list R) (rows : nat) : option (list R) :=
  if Nat.eqb (List.length v) rows then Some v
  else if Nat.eqb (List.length v) 1 then Some (repeat (hd 0 v) rows)
  else None.

(** [outdata[:, 0] = v] and [outdata[:, 1] = v]. *)
Definition assign_left (outdata : list (R * R)) (v : list R)
  : outcome (list (R * R)) :=
  match broadcast v (List.length outdata) with
  | Some column => Returned (combine column (map snd outdata))
  | None => Raised ValueError
  end.

Definition assign_right (outdata : list (R * R)) (v : list R)
  : outcome (list (R * R)) :=
  match broadcast v (List.length outdata) with
  | Some column => Returned (combine (map fst outdata) column)
  | None => Raised ValueError
  end.

(** [audio_callback(outdata, frames, time, status)]: [outdata] is the
    buffer of the device, one row per frame and one column per channel;
    [outputBufferDacTime] is [time.outputBufferDacTime]; [status] is not
    used.  The function has no [try]: what an assignment raises leaves it. *)
Definition audio_callback
    (st : App) (outdata : list (R * R)) (frames : nat)
    (outputBufferDacTime : R) : outcome (list (R * R)) :=
  let t :=
    map (fun n =>
           remainder (n + outputBufferDacTime * IZR (Zpos sampling_rate))
             (IZR (Zpos sampling_rate)))
      (arange frames) in
  let radian_phase_left := Q2R (phase_left st) * PI / 180 in
  let radian_phase_right := Q2R (phase_right st) * PI / 180 in
  match
    assign_left outdata
      (map (fun t =>
              Q2R (volume st) * 0.5
              * sin (2 * PI * Q2R (frequency_left st) * t
                     / IZR (Zpos sampling_rate) + radian_phase_left)) t)
  with
  | Raised e => Raised e
  | Returned outdata =>
      assign_right outdata
        (map (fun t =>
                Q2R (volume st) * 0.5
                * sin (2 * PI * Q2R (frequency_right st) * t
                       / IZR (Zpos sampling_rate) + radian_phase_right)) t)
  end.

(** [np.linspace(start, stop, num, endpoint=False)]. *)
Definition linspace (start stop : R) (num : nat) : list R :=
  map (fun i => i * ((stop - start) / INR num) + start) (arange num).

(** The curves [plot_waveforms()] draws: the times [t] and the two waves. *)
Definition waveforms (st : App) : list R * list R * list R :=
  let duration := 0.05%Q in
  let t :=
    linspace 0 (Q2R duration)
      (Z.to_nat (int (inject_Z (Zpos sampling_rate) * duration))) in
  let radian_phase_left := Q2R (phase_left st) * PI / 180 in
  let radian_phase_right := Q2R (phase_right st) * PI / 180 in
  let wave1 :=
    map (fun t =>
           0.5 * sin (2 * PI * Q2R (frequency_left st) * t
                      + radian_phase_left)) t in
  let wave2 :=
    map (fun t =>
           0.5 * sin (2 * PI * Q2R (frequency_right st) * t
                      + radian_phase_right)) t in
  (t, wave1, wave2).

Local Close Scope R_scope.

(** ** Events of the control surface *)

(** What the user can do that reaches the parameters or the stream.  An
    entry is bound with [bind("<Return>", handler)], so the handler is
    called with the event object as its first argument, [from_slider],
    which is true in a condition. *)
Inductive event : Type :=
| Return_frequency_left (typed : text)
| Return_frequency_right (typed : text)
| Return_phase_left (typed : text)
| Return_phase_right (typed : text)
| Move_frequency_left (val : Q)
| Move_frequency_right (val : Q)
| Move_phase_left (val : Q)
| Move_phase_right (val : Q)
| Move_volume (val : Q)
| Save (name : string)
| Load (selection : list nat)
| Start (dev : device)
| Stop.

Definition handle (e : event) (st : App) : App :=
  match e with
  | Return_frequency_left typed =>
      update_frequency_left true (set_frequency_left_entry typed st)
  | Return_frequency_right typed =>
      update_frequency_right true (set_frequency_right_entry typed st)
  | Return_phase_left typed =>
      update_phase_left true (set_phase_left_entry typed st)
  | Return_phase_right typed =>
      update_phase_right true (set_phase_right_entry typed st)
  | Move_frequency_left val => update_frequency_left_slider val st
  | Move_frequency_right val => update_frequency_right_slider val st
  | Move_phase_left val => update_phase_left_slider val st
  | Move_phase_right val => update_phase_right_slider val st
  | Move_volume val => update_volume val st
  | Save name => save name st
  | Load selection =>
      match load_configuration st with
      | (st, Some listbox) => load_selected_config listbox selection st
      | (st, None) => st
      end
  | Start dev => fst (start_stream dev st)
  | Stop => stop_stream st
  end.

End Audio.

(** ** Vocabulary of the statements *)

(** The positions a slider can report are those of its [Scale]: the volume
    scale is created with [from_=0, to=100]. *)
Definition within_scale (e : event) : bool :=
  match e with
  | Move_volume val => between 0 val 100
  | _ => true
  end.

(** A sequence of events, handled in order. *)
Definition run (sampling_rate : positive) (events : list event) (st : App)
  : App :=
  fold_left (fun st e => handle sampling_rate e st) events st.

(** The state with the stream handle and the two buttons blanked: what
    remains is everything else. *)
Definition outside_stream (st : App) : App :=
  set_stop_button normal (set_start_button normal (set_stream None st)).

(** Presses of the Start and Stop buttons: [Some dev] is a press of Start
    answered by [dev], [None] a press of Stop. *)
Definition stream_events (presses : list (option device)) : list event :=
  map (fun o => match o with Some dev => Start dev | None => Stop end)
    presses.

(** A saved row with a volume of 5, as a database written elsewhere could
    hold it. *)
Definition loud_row : configuration :=
  {| config_id := 1; config_name := "loud";
     config_frequency_left := 100; config_frequency_right := 104;
     config_phase_left := 0; config_phase_right := 0;
     config_volume := 5 |}.

(** A second saved row, whose name comes before that of [loud_row] and
    whose left frequency has two decimals. *)
Definition again_row : configuration :=
  {| config_id := 2; config_name := "again";
     config_frequency_left := 440.04; config_frequency_right := 444;
     config_phase_left := 90; config_phase_right := 0;
     config_volume := 0.5 |}.

(** The frame [audio_callback] computes for the row of index [i]. *)
Definition frame_at
    (sampling_rate : positive) (st : App) (outputBufferDacTime : R) (i : nat)
  : R * R :=
  let t :=
    remainder (INR i + outputBufferDacTime * IZR (Zpos sampling_rate))
      (IZR (Zpos sampling_rate)) in
  (Q2R (volume st) * 0.5
   * sin (2 * PI * Q2R (frequency_left st) * t / IZR (Zpos sampling_rate)
          + Q2R (phase_left st) * PI / 180),
   Q2R (volume st) * 0.5
   * sin (2 * PI * Q2R (frequency_right st) * t / IZR (Zpos sampling_rate)
          + Q2R (phase_right st) * PI / 180))%R.

(** Both samples of a frame are within [bound] of zero. *)
Definition within (bound : R) (frame : R * R) : Prop :=
  (- bound <= fst frame <= bound /\ - bound <= snd frame <= bound)%R.

(** ** Vocabulary of the further properties *)

(** The plot of the current frequencies and phases. *)
Definition current_plot (st : App) : plot :=
  {| plot_frequency_left := frequency_left st;
     plot_frequency_right := frequency_right st;
     plot_phase_left := phase_left st;
     plot_phase_right := phase_right st |}.

(** [stream is not None and stream.active]. *)
Definition streaming (st : App) : bool :=
  match stream st with
  | Some s => active s
  | None => false
  end.

Definition button_eqb (a b : button_state) : bool :=
  match a, b with
  | normal, normal => true
  | disabled, disabled => true
  | _, _ => false
  end.

(** The two buttons follow the stream: Start is disabled and Stop enabled
    while it runs, the other way round while it does not. *)
Definition controls_agree (st : App) : bool :=
  if streaming st
  then button_eqb (start_button st) disabled
       && button_eqb (stop_button st) normal
  else button_eqb (start_button st) normal
       && button_eqb (stop_button st) disabled.

(** The names of the saved configurations, in the order of the table. *)
Definition names (st : App) : list string :=
  map config_name (configurations st).

(** The row [save] writes for [name] in the state [st]. *)
Definition saved_row (name : string) (st : App) : configuration :=
  {| config_id := next_id (configurations st);
     config_name := name;
     config_frequency_left := frequency_left st;
     config_frequency_right := frequency_right st;
     config_phase_left := phase_left st;
     config_phase_right := phase_right st;
     config_volume := volume st |}.

(** The five parameters a row holds. *)
Definition config_parameters (c : configuration) : Q * Q * Q * Q * Q :=
  (config_frequency_left c, config_frequency_right c, config_phase_left c,
   config_phase_right c, config_volume c).

(** ** Placement of the dialogs *)

(** What [winfo_x], [winfo_y], [winfo_width] and [winfo_height] report for
    a window, in pixels. *)
Record geometry : Type := {
  winfo_x : Z;
  winfo_y : Z;
  winfo_width : Z;
  winfo_height : Z
}.

(** [center_dialog(dialog)]: the position given to [dialog.geometry], from
    the geometry of the main window [root] and the size of the dialog. *)
Definition center_dialog (root dialog : geometry) : Z * Z :=
  let width := winfo_width dialog in
  let height := winfo_height dialog in
  let x := (winfo_x root + winfo_width root / 2 - width / 2)%Z in
  let y := (winfo_y root + winfo_height root / 2 - height / 2)%Z in
  (x, y).

(** ** The steps of [update_ui_values] *)

(** The two lines of [update_ui_values] on one field and its slider. *)
Definition show_frequency_left (st : App) : App :=
  let st := set_frequency_left_entry (shown_1f (frequency_left st)) st in
  frequency_left_slider_set (frequency_left st) st.

Definition show_frequency_right (st : App) : App :=
  let st := set_frequency_right_entry (shown_1f (frequency_right st)) st in
  frequency_right_slider_set (frequency_right st) st.

Definition show_phase_left (st : App) : App :=
  let st := set_phase_left_entry (shown_1f (phase_left st)) st in
  phase_left_slider_set (phase_left st) st.

Definition show_phase_right (st : App) : App :=
  let st := set_phase_right_entry (shown_1f (phase_right st)) st in
  phase_right_slider_set (phase_right st) st.

(** Its lines on the volume slider and the volume label. *)
Definition show_volume (st : App) : App :=
  let st := volume_slider_set (volume st * 100) st in
  match volume_value_label st with
  | Some _ => set_volume_value_label (Some (int (volume st * 100))) st
  | None => st
  end.

(** What [update_ui_values] makes of five parameters: the frequencies and
    the phases are clipped to their scales and rounded to one decimal, the
    volume is clipped to [0, 1]. *)
Definition shown_parameters (p : Q * Q * Q * Q * Q) : Q * Q * Q * Q * Q :=
  let '(fl, fr, pl, pr, v) := p in
  (format_1f (clip 1 fl 20000), format_1f (clip 1 fr 20000),
   format_1f (clip 0 pl 360), format_1f (clip 0 pr 360),
   clip 0 (v * 100) 100 / 100).

(** ** Driver times *)




(** * Properties *)

(** ** Ranges, rounding and clipping *)

Lemma between_spec (lo x hi : Q) :
  between lo x hi = true <-> lo <= x /\ x <= hi.
Proof.
  unfold between. rewrite andb_true_iff, !Qle_bool_iff. tauto.
Qed.

Lemma Qfloor_between (x : Q) :
  inject_Z (Qfloor x) <= x /\ x < inject_Z (Qfloor x) + 1.
Proof.
  split; [apply Qfloor_le | ].
  pose proof (Qlt_floor x) as H. rewrite inject_Z_plus in H. exact H.
Qed.

(** The rounded value is the floor or the floor plus one, and within a
    half of the number. *)
Lemma round_half_even_cases (x : Q) :
  (round_half_even x = Qfloor x /\ x - inject_Z (Qfloor x) <= 1 # 2)
  \/ (round_half_even x = (Qfloor x + 1)%Z
      /\ 1 # 2 <= x - inject_Z (Qfloor x)).
Proof.
  unfold round_half_even.
  destruct (Qcompare_spec (x - inject_Z (Qfloor x)) (1 # 2)) as [E | L | G].
  - rewrite E. destruct (Z.even (Qfloor x)); [left | right];
      split; try reflexivity; apply Qle_refl.
  - left. split; [reflexivity | now apply Qlt_le_weak].
  - right. split; [reflexivity | now apply Qlt_le_weak].
Qed.

(** Rounding does not cross an integer. *)
Lemma round_half_even_ge (a : Z) (x : Q) :
  inject_Z a <= x -> (a <= round_half_even x)%Z.
Proof.
  intros H. apply Qfloor_resp_le in H. rewrite Qfloor_Z in H.
  destruct (round_half_even_cases x) as [[-> _] | [-> _]]; lia.
Qed.

Lemma round_half_even_le (b : Z) (x : Q) :
  x <= inject_Z b -> (round_half_even x <= b)%Z.
Proof.
  intros H. pose proof (Qfloor_between x) as [Hlo Hhi].
  destruct (round_half_even_cases x) as [[-> _] | [-> Hhalf]].
  - rewrite Zle_Qle. now apply Qle_trans with x.
  - assert (Hlt : inject_Z (Qfloor x) < inject_Z b) by Lqa.lra.
    rewrite <- Zlt_Qlt in Hlt. lia.
Qed.

(** Ten times the shown value is the rounded integer. *)
Lemma format_1f_tenths (x : Q) :
  format_1f x * 10 == inject_Z (round_half_even (x * 10)).
Proof. unfold format_1f. field. Qed.

(** A number between two multiples of a tenth is shown between them. *)
Lemma format_1f_between (a b : Z) (x : Q) :
  inject_Z a <= x * 10 -> x * 10 <= inject_Z b ->
  inject_Z a <= format_1f x * 10 /\ format_1f x * 10 <= inject_Z b.
Proof.
  intros Ha Hb. rewrite format_1f_tenths.
  apply round_half_even_ge in Ha. apply round_half_even_le in Hb.
  now rewrite <- !Zle_Qle.
Qed.

Lemma format_1f_frequency (x : Q) :
  between 1 x 20000 = true -> between 1 (format_1f x) 20000 = true.
Proof.
  intros H. apply between_spec in H. destruct H as [H1 H2].
  apply between_spec.
  destruct (@format_1f_between 10%Z 200000%Z x) as [Hlo Hhi].
  - change (inject_Z 10) with 10. Lqa.lra.
  - change (inject_Z 200000) with 200000. Lqa.lra.
  - change (inject_Z 10) with 10 in Hlo.
    change (inject_Z 200000) with 200000 in Hhi.
    split; Lqa.lra.
Qed.

Lemma format_1f_phase (x : Q) :
  between 0 x 360 = true -> between 0 (format_1f x) 360 = true.
Proof.
  intros H. apply between_spec in H. destruct H as [H1 H2].
  apply between_spec.
  destruct (@format_1f_between 0%Z 3600%Z x) as [Hlo Hhi].
  - change (inject_Z 0) with 0. Lqa.lra.
  - change (inject_Z 3600) with 3600. Lqa.lra.
  - change (inject_Z 0) with 0 in Hlo.
    change (inject_Z 3600) with 3600 in Hhi.
    split; Lqa.lra.
Qed.

(** Rounding sees the number, not the fraction that writes it. *)
Lemma round_half_even_comp (x y : Q) :
  x == y -> round_half_even x = round_half_even y.
Proof.
  intros E. unfold round_half_even.
  rewrite (Qfloor_comp _ _ E).
  assert (C : Qcompare (x - inject_Z (Qfloor y)) (1 # 2)
              = Qcompare (y - inject_Z (Qfloor y)) (1 # 2))
    by now rewrite E.
  now rewrite C.
Qed.

Lemma round_half_even_whole (n : Z) : round_half_even (inject_Z n) = n.
Proof.
  unfold round_half_even. rewrite Qfloor_Z.
  assert (E : inject_Z n - inject_Z n == 0) by ring.
  assert (C : Qcompare (inject_Z n - inject_Z n) (1 # 2) = Lt)
    by now rewrite E.
  now rewrite C.
Qed.

(** A value shown with one decimal is shown as itself. *)
Lemma format_1f_again (x : Q) : format_1f (format_1f x) = format_1f x.
Proof.
  unfold format_1f at 1 3. f_equal. f_equal.
  rewrite (round_half_even_comp (format_1f_tenths x)).
  apply round_half_even_whole.
Qed.

Lemma clip_between (lo v hi : Q) :
  lo <= hi -> between lo (clip lo v hi) hi = true.
Proof.
  intros H. unfold clip, between.
  destruct (Qle_bool lo v) eqn:E1.
  - destruct (Qle_bool v hi) eqn:E2.
    + now rewrite E1, E2.
    + apply Qle_bool_iff in H. rewrite H.
      assert (R : Qle_bool hi hi = true) by (apply Qle_bool_iff, Qle_refl).
      now rewrite R.
  - apply Qle_bool_iff in H. rewrite H.
    assert (R : Qle_bool lo lo = true) by (apply Qle_bool_iff, Qle_refl).
    now rewrite R.
Qed.

Lemma clip_inside (lo v hi : Q) :
  between lo v hi = true -> clip lo v hi = v.
Proof.
  unfold between, clip. intros H. apply andb_true_iff in H.
  destruct H as [-> ->]. reflexivity.
Qed.

(** ** What [set] on a slider does *)

(** [frequency_left_slider.set(v)]: the slider is put on the clipped value, the
    field shows it with one decimal and the parameter is that text. *)
Lemma frequency_left_slider_set_at_eq (depth : nat) (v : Q) (st : App) :
  frequency_left_slider_set_at (S depth) v st
  = plot_waveforms
      (set_frequency_left (format_1f (clip 1 v 20000))
         (set_frequency_left_entry (shown_1f (clip 1 v 20000))
            (set_frequency_left_slider (clip 1 v 20000) st))).
Proof.
  assert (H : between 1 (format_1f (clip 1 v 20000)) 20000 = true).
  { apply format_1f_frequency. apply clip_between. discriminate. }
  cbn [frequency_left_slider_set_at]. unfold update_frequency_left_with.
  cbn [float frequency_left_entry set_frequency_left_entry shown_1f].
  rewrite H. reflexivity.
Qed.

(** One level of nesting is all there is: the command the slider calls
    never sets the slider again. *)
Lemma frequency_left_slider_set_depth (depth : nat) (v : Q) (st : App) :
  frequency_left_slider_set_at (S depth) v st = frequency_left_slider_set v st.
Proof.
  unfold frequency_left_slider_set. now rewrite !frequency_left_slider_set_at_eq.
Qed.

Lemma frequency_left_slider_set_eq (v : Q) (st : App) :
  frequency_left_slider_set v st
  = plot_waveforms
      (set_frequency_left (format_1f (clip 1 v 20000))
         (set_frequency_left_entry (shown_1f (clip 1 v 20000))
            (set_frequency_left_slider (clip 1 v 20000) st))).
Proof. apply frequency_left_slider_set_at_eq. Qed.

Lemma frequency_left_slider_set_parameters (v : Q) (st : App) :
  parameters (frequency_left_slider_set v st)
  = (format_1f (clip 1 v 20000), frequency_right st, phase_left st,
     phase_right st, volume st).
Proof. now rewrite frequency_left_slider_set_eq. Qed.

(** It shows no dialog and leaves the table, the stream, the buttons and
    the volume label alone. *)
Lemma frequency_left_slider_set_frame (v : Q) (st : App) :
  dialogs (frequency_left_slider_set v st) = dialogs st
  /\ configurations (frequency_left_slider_set v st) = configurations st
  /\ (stream (frequency_left_slider_set v st), start_button (frequency_left_slider_set v st),
      stop_button (frequency_left_slider_set v st))
     = (stream st, start_button st, stop_button st)
  /\ volume_value_label (frequency_left_slider_set v st) = volume_value_label st.
Proof. rewrite frequency_left_slider_set_eq. repeat split. Qed.


(** [frequency_right_slider.set(v)]: the slider is put on the clipped value, the
    field shows it with one decimal and the parameter is that text. *)
Lemma frequency_right_slider_set_at_eq (depth : nat) (v : Q) (st : App) :
  frequency_right_slider_set_at (S depth) v st
  = plot_waveforms
      (set_frequency_right (format_1f (clip 1 v 20000))
         (set_frequency_right_entry (shown_1f (clip 1 v 20000))
            (set_frequency_right_slider (clip 1 v 20000) st))).
Proof.
  assert (H : between 1 (format_1f (clip 1 v 20000)) 20000 = true).
  { apply format_1f_frequency. apply clip_between. discriminate. }
  cbn [frequency_right_slider_set_at]. unfold update_frequency_right_with.
  cbn [float frequency_right_entry set_frequency_right_entry shown_1f].
  rewrite H. reflexivity.
Qed.

(** One level of nesting is all there is: the command the slider calls
    never sets the slider again. *)
Lemma frequency_right_slider_set_depth (depth : nat) (v : Q) (st : App) :
  frequency_right_slider_set_at (S depth) v st = frequency_right_slider_set v st.
Proof.
  unfold frequency_right_slider_set. now rewrite !frequency_right_slider_set_at_eq.
Qed.

Lemma frequency_right_slider_set_eq (v : Q) (st : App) :
  frequency_right_slider_set v st
  = plot_waveforms
      (set_frequency_right (format_1f (clip 1 v 20000))
         (set_frequency_right_entry (shown_1f (clip 1 v 20000))
            (set_frequency_right_slider (clip 1 v 20000) st))).
Proof. apply frequency_right_slider_set_at_eq. Qed.

Lemma frequency_right_slider_set_parameters (v : Q) (st : App) :
  parameters (frequency_right_slider_set v st)
  = (frequency_left st, format_1f (clip 1 v 20000), phase_left st,
     phase_right st, volume st).
Proof. now rewrite frequency_right_slider_set_eq. Qed.

(** It shows no dialog and leaves the table, the stream, the buttons and
    the volume label alone. *)
Lemma frequency_right_slider_set_frame (v : Q) (st : App) :
  dialogs (frequency_right_slider_set v st) = dialogs st
  /\ configurations (frequency_right_slider_set v st) = configurations st
  /\ (stream (frequency_right_slider_set v st), start_button (frequency_right_slider_set v st),
      stop_button (frequency_right_slider_set v st))
     = (stream st, start_button st, stop_button st)
  /\ volume_value_label (frequency_right_slider_set v st) = volume_value_label st.
Proof. rewrite frequency_right_slider_set_eq. repeat split. Qed.


(** [phase_left_slider.set(v)]: the slider is put on the clipped value, the
    field shows it with one decimal and the parameter is that text. *)
Lemma phase_left_slider_set_at_eq (depth : nat) (v : Q) (st : App) :
  phase_left_slider_set_at (S depth) v st
  = plot_waveforms
      (set_phase_left (format_1f (clip 0 v 360))
         (set_phase_left_entry (shown_1f (clip 0 v 360))
            (set_phase_left_slider (clip 0 v 360) st))).
Proof.
  assert (H : between 0 (format_1f (clip 0 v 360)) 360 = true).
  { apply format_1f_phase. apply clip_between. discriminate. }
  cbn [phase_left_slider_set_at]. unfold update_phase_left_with.
  cbn [float phase_left_entry set_phase_left_entry shown_1f].
  rewrite H. reflexivity.
Qed.

(** One level of nesting is all there is: the command the slider calls
    never sets the slider again. *)
Lemma phase_left_slider_set_depth (depth : nat) (v : Q) (st : App) :
  phase_left_slider_set_at (S depth) v st = phase_left_slider_set v st.
Proof.
  unfold phase_left_slider_set. now rewrite !phase_left_slider_set_at_eq.
Qed.

Lemma phase_left_slider_set_eq (v : Q) (st : App) :
  phase_left_slider_set v st
  = plot_waveforms
      (set_phase_left (format_1f (clip 0 v 360))
         (set_phase_left_entry (shown_1f (clip 0 v 360))
            (set_phase_left_slider (clip 0 v 360) st))).
Proof. apply phase_left_slider_set_at_eq. Qed.

Lemma phase_left_slider_set_parameters (v : Q) (st : App) :
  parameters (phase_left_slider_set v st)
  = (frequency_left st, frequency_right st, format_1f (clip 0 v 360),
     phase_right st, volume st).
Proof. now rewrite phase_left_slider_set_eq. Qed.

(** It shows no dialog and leaves the table, the stream, the buttons and
    the volume label alone. *)
Lemma phase_left_slider_set_frame (v : Q) (st : App) :
  dialogs (phase_left_slider_set v st) = dialogs st
  /\ configurations (phase_left_slider_set v st) = configurations st
  /\ (stream (phase_left_slider_set v st), start_button (phase_left_slider_set v st),
      stop_button (phase_left_slider_set v st))
     = (stream st, start_button st, stop_button st)
  /\ volume_value_label (phase_left_slider_set v st) = volume_value_label st.
Proof. rewrite phase_left_slider_set_eq. repeat split. Qed.


(** [phase_right_slider.set(v)]: the slider is put on the clipped value, the
    field shows it with one decimal and the parameter is that text. *)
Lemma phase_right_slider_set_at_eq (depth : nat) (v : Q) (st : App) :
  phase_right_slider_set_at (S depth) v st
  = plot_waveforms
      (set_phase_right (format_1f (clip 0 v 360))
         (set_phase_right_entry (shown_1f (clip 0 v 360))
            (set_phase_right_slider (clip 0 v 360) st))).
Proof.
  assert (H : between 0 (format_1f (clip 0 v 360)) 360 = true).
  { apply format_1f_phase. apply clip_between. discriminate. }
  cbn [phase_right_slider_set_at]. unfold update_phase_right_with.
  cbn [float phase_right_entry set_phase_right_entry shown_1f].
  rewrite H. reflexivity.
Qed.

(** One level of nesting is all there is: the command the slider calls
    never sets the slider again. *)
Lemma phase_right_slider_set_depth (depth : nat) (v : Q) (st : App) :
  phase_right_slider_set_at (S depth) v st = phase_right_slider_set v st.
Proof.
  unfold phase_right_slider_set. now rewrite !phase_right_slider_set_at_eq.
Qed.

Lemma phase_right_slider_set_eq (v : Q) (st : App) :
  phase_right_slider_set v st
  = plot_waveforms
      (set_phase_right (format_1f (clip 0 v 360))
         (set_phase_right_entry (shown_1f (clip 0 v 360))
            (set_phase_right_slider (clip 0 v 360) st))).
Proof. apply phase_right_slider_set_at_eq. Qed.

Lemma phase_right_slider_set_parameters (v : Q) (st : App) :
  parameters (phase_right_slider_set v st)
  = (frequency_left st, frequency_right st, phase_left st,
     format_1f (clip 0 v 360), volume st).
Proof. now rewrite phase_right_slider_set_eq. Qed.

(** It shows no dialog and leaves the table, the stream, the buttons and
    the volume label alone. *)
Lemma phase_right_slider_set_frame (v : Q) (st : App) :
  dialogs (phase_right_slider_set v st) = dialogs st
  /\ configurations (phase_right_slider_set v st) = configurations st
  /\ (stream (phase_right_slider_set v st), start_button (phase_right_slider_set v st),
      stop_button (phase_right_slider_set v st))
     = (stream st, start_button st, stop_button st)
  /\ volume_value_label (phase_right_slider_set v st) = volume_value_label st.
Proof. rewrite phase_right_slider_set_eq. repeat split. Qed.

Lemma volume_slider_set_parameters (v : Q) (st : App) :
  parameters (volume_slider_set v st)
  = (frequency_left st, frequency_right st, phase_left st, phase_right st,
     clip 0 v 100 / 100).
Proof.
  unfold volume_slider_set, update_volume. cbv zeta.
  cbn [volume_value_label set_volume set_volume_slider].
  now destruct (volume_value_label st).
Qed.

Lemma volume_slider_set_frame (v : Q) (st : App) :
  dialogs (volume_slider_set v st) = dialogs st
  /\ configurations (volume_slider_set v st) = configurations st
  /\ (stream (volume_slider_set v st), start_button (volume_slider_set v st),
      stop_button (volume_slider_set v st))
     = (stream st, start_button st, stop_button st).
Proof.
  unfold volume_slider_set, update_volume. cbv zeta.
  cbn [volume_value_label set_volume set_volume_slider].
  destruct (volume_value_label st); repeat split.
Qed.

(** ** The field handlers *)

Lemma update_frequency_left_rejects (b : bool) (st : App) :
  (forall x, frequency_left_entry st = Numeral (Finite x) ->
             between 1 x 20000 = false) ->
  update_frequency_left b st = reject_frequency_left st.
Proof.
  intros H. unfold update_frequency_left, reject_frequency_left, update_frequency_left_with.
  destruct (frequency_left_entry st) as [[x | | ] | ]; simpl; try reflexivity.
  now rewrite (H x eq_refl).
Qed.

(** A field holding a number in range: the number is stored; called with
    [from_slider] false the handler then sets the slider, whose command
    stores the number again, rounded to one decimal. *)
Lemma update_frequency_left_accepted (b : bool) (st : App) (x : Q) :
  frequency_left_entry st = Numeral (Finite x) ->
  between 1 x 20000 = true ->
  update_frequency_left b st
  = plot_waveforms
      (if b then set_frequency_left x st
       else frequency_left_slider_set x (set_frequency_left x st)).
Proof.
  intros He Hx. unfold update_frequency_left, update_frequency_left_with.
  rewrite He. cbn [float]. rewrite Hx. now destruct b.
Qed.

Lemma reject_frequency_left_eq (st : App) :
  reject_frequency_left st
  = frequency_left_slider_set (frequency_left st)
      (set_frequency_left_entry (shown_1f (frequency_left st))
         (messagebox
            (showerror "Invalid Value"
               "Please enter a valid number between 1 and 20000 for Frequency Left.")
            st)).
Proof. reflexivity. Qed.

(** A rejection: one dialog; the slider goes to the stored value clipped
    to the scale, and its command stores that value rounded to one
    decimal. *)
Lemma reject_frequency_left_parameters (st : App) :
  parameters (reject_frequency_left st)
  = (format_1f (clip 1 (frequency_left st) 20000), frequency_right st,
     phase_left st, phase_right st, volume st)
  /\ dialogs (reject_frequency_left st)
     = (dialogs st
        ++ [showerror "Invalid Value"
              "Please enter a valid number between 1 and 20000 for Frequency Left."])%list
  /\ configurations (reject_frequency_left st) = configurations st
  /\ (stream (reject_frequency_left st), start_button (reject_frequency_left st),
      stop_button (reject_frequency_left st))
     = (stream st, start_button st, stop_button st)
  /\ frequency_left_entry (reject_frequency_left st) = shown_1f (clip 1 (frequency_left st) 20000)
  /\ frequency_left_slider (reject_frequency_left st) = clip 1 (frequency_left st) 20000.
Proof.
  rewrite reject_frequency_left_eq, frequency_left_slider_set_eq. repeat split.
Qed.

(** The same for an accepted number. *)
Lemma update_frequency_left_accepts (b : bool) (st : App) (x : Q) :
  frequency_left_entry st = Numeral (Finite x) ->
  between 1 x 20000 = true ->
  parameters (update_frequency_left b st)
  = (if b then x else format_1f x, frequency_right st, phase_left st,
     phase_right st, volume st)
  /\ dialogs (update_frequency_left b st) = dialogs st
  /\ configurations (update_frequency_left b st) = configurations st
  /\ (stream (update_frequency_left b st), start_button (update_frequency_left b st),
      stop_button (update_frequency_left b st))
     = (stream st, start_button st, stop_button st).
Proof.
  intros He Hx. rewrite (update_frequency_left_accepted b st He Hx).
  destruct b; [repeat split | ].
  rewrite frequency_left_slider_set_eq, (clip_inside _ _ _ Hx). repeat split.
Qed.


Lemma update_frequency_right_rejects (b : bool) (st : App) :
  (forall x, frequency_right_entry st = Numeral (Finite x) ->
             between 1 x 20000 = false) ->
  update_frequency_right b st = reject_frequency_right st.
Proof.
  intros H. unfold update_frequency_right, reject_frequency_right, update_frequency_right_with.
  destruct (frequency_right_entry st) as [[x | | ] | ]; simpl; try reflexivity.
  now rewrite (H x eq_refl).
Qed.

(** A field holding a number in range: the number is stored; called with
    [from_slider] false the handler then sets the slider, whose command
    stores the number again, rounded to one decimal. *)
Lemma update_frequency_right_accepted (b : bool) (st : App) (x : Q) :
  frequency_right_entry st = Numeral (Finite x) ->
  between 1 x 20000 = true ->
  update_frequency_right b st
  = plot_waveforms
      (if b then set_frequency_right x st
       else frequency_right_slider_set x (set_frequency_right x st)).
Proof.
  intros He Hx. unfold update_frequency_right, update_frequency_right_with.
  rewrite He. cbn [float]. rewrite Hx. now destruct b.
Qed.

Lemma reject_frequency_right_eq (st : App) :
  reject_frequency_right st
  = frequency_right_slider_set (frequency_right st)
      (set_frequency_right_entry (shown_1f (frequency_right st))
         (messagebox
            (showerror "Invalid Value"
               "Please enter a valid number between 1 and 20000 for Frequency Right.")
            st)).
Proof. reflexivity. Qed.

(** A rejection: one dialog; the slider goes to the stored value clipped
    to the scale, and its command stores that value rounded to one
    decimal. *)
Lemma reject_frequency_right_parameters (st : App) :
  parameters (reject_frequency_right st)
  = (frequency_left st, format_1f (clip 1 (frequency_right st) 20000),
     phase_left st, phase_right st, volume st)
  /\ dialogs (reject_frequency_right st)
     = (dialogs st
        ++ [showerror "Invalid Value"
              "Please enter a valid number between 1 and 20000 for Frequency Right."])%list
  /\ configurations (reject_frequency_right st) = configurations st
  /\ (stream (reject_frequency_right st), start_button (reject_frequency_right st),
      stop_button (reject_frequency_right st))
     = (stream st, start_button st, stop_button st)
  /\ frequency_right_entry (reject_frequency_right st) = shown_1f (clip 1 (frequency_right st) 20000)
  /\ frequency_right_slider (reject_frequency_right st) = clip 1 (frequency_right st) 20000.
Proof.
  rewrite reject_frequency_right_eq, frequency_right_slider_set_eq. repeat split.
Qed.

(** The same for an accepted number. *)
Lemma update_frequency_right_accepts (b : bool) (st : App) (x : Q) :
  frequency_right_entry st = Numeral (Finite x) ->
  between 1 x 20000 = true ->
  parameters (update_frequency_right b st)
  = (frequency_left st, if b then x else format_1f x, phase_left st,
     phase_right st, volume st)
  /\ dialogs (update_frequency_right b st) = dialogs st
  /\ configurations (update_frequency_right b st) = configurations st
  /\ (stream (update_frequency_right b st), start_button (update_frequency_right b st),
      stop_button (update_frequency_right b st))
     = (stream st, start_button st, stop_button st).
Proof.
  intros He Hx. rewrite (update_frequency_right_accepted b st He Hx).
  destruct b; [repeat split | ].
  rewrite frequency_right_slider_set_eq, (clip_inside _ _ _ Hx). repeat split.
Qed.


Lemma update_phase_left_rejects (b : bool) (st : App) :
  (forall x, phase_left_entry st = Numeral (Finite x) ->
             between 0 x 360 = false) ->
  update_phase_left b st = reject_phase_left st.
Proof.
  intros H. unfold update_phase_left, reject_phase_left, update_phase_left_with.
  destruct (phase_left_entry st) as [[x | | ] | ]; simpl; try reflexivity.
  now rewrite (H x eq_refl).
Qed.

(** A field holding a number in range: the number is stored; called with
    [from_slider] false the handler then sets the slider, whose command
    stores the number again, rounded to one decimal. *)
Lemma update_phase_left_accepted (b : bool) (st : App) (x : Q) :
  phase_left_entry st = Numeral (Finite x) ->
  between 0 x 360 = true ->
  update_phase_left b st
  = plot_waveforms
      (if b then set_phase_left x st
       else phase_left_slider_set x (set_phase_left x st)).
Proof.
  intros He Hx. unfold update_phase_left, update_phase_left_with.
  rewrite He. cbn [float]. rewrite Hx. now destruct b.
Qed.

Lemma reject_phase_left_eq (st : App) :
  reject_phase_left st
  = phase_left_slider_set (phase_left st)
      (set_phase_left_entry (shown_1f (phase_left st))
         (messagebox
            (showerror "Invalid Value"
               "Please enter a valid number between 0 and 360 for Phase Left.")
            st)).
Proof. reflexivity. Qed.

(** A rejection: one dialog; the slider goes to the stored value clipped
    to the scale, and its command stores that value rounded to one
    decimal. *)
Lemma reject_phase_left_parameters (st : App) :
  parameters (reject_phase_left st)
  = (frequency_left st, frequency_right st,
     format_1f (clip 0 (phase_left st) 360), phase_right st, volume st)
  /\ dialogs (reject_phase_left st)
     = (dialogs st
        ++ [showerror "Invalid Value"
              "Please enter a valid number between 0 and 360 for Phase Left."])%list
  /\ configurations (reject_phase_left st) = configurations st
  /\ (stream (reject_phase_left st), start_button (reject_phase_left st),
      stop_button (reject_phase_left st))
     = (stream st, start_button st, stop_button st)
  /\ phase_left_entry (reject_phase_left st) = shown_1f (clip 0 (phase_left st) 360)
  /\ phase_left_slider (reject_phase_left st) = clip 0 (phase_left st) 360.
Proof.
  rewrite reject_phase_left_eq, phase_left_slider_set_eq. repeat split.
Qed.

(** The same for an accepted number. *)
Lemma update_phase_left_accepts (b : bool) (st : App) (x : Q) :
  phase_left_entry st = Numeral (Finite x) ->
  between 0 x 360 = true ->
  parameters (update_phase_left b st)
  = (frequency_left st, frequency_right st, if b then x else format_1f x,
     phase_right st, volume st)
  /\ dialogs (update_phase_left b st) = dialogs st
  /\ configurations (update_phase_left b st) = configurations st
  /\ (stream (update_phase_left b st), start_button (update_phase_left b st),
      stop_button (update_phase_left b st))
     = (stream st, start_button st, stop_button st).
Proof.
  intros He Hx. rewrite (update_phase_left_accepted b st He Hx).
  destruct b; [repeat split | ].
  rewrite phase_left_slider_set_eq, (clip_inside _ _ _ Hx). repeat split.
Qed.


Lemma update_phase_right_rejects (b : bool) (st : App) :
  (forall x, phase_right_entry st = Numeral (Finite x) ->
             between 0 x 360 = false) ->
  update_phase_right b st = reject_phase_right st.
Proof.
  intros H. unfold update_phase_right, reject_phase_right, update_phase_right_with.
  destruct (phase_right_entry st) as [[x | | ] | ]; simpl; try reflexivity.
  now rewrite (H x eq_refl).
Qed.

(** A field holding a number in range: the number is stored; called with
    [from_slider] false the handler then sets the slider, whose command
    stores the number again, rounded to one decimal. *)
Lemma update_phase_right_accepted (b : bool) (st : App) (x : Q) :
  phase_right_entry st = Numeral (Finite x) ->
  between 0 x 360 = true ->
  update_phase_right b st
  = plot_waveforms
      (if b then set_phase_right x st
       else phase_right_slider_set x (set_phase_right x st)).
Proof.
  intros He Hx. unfold update_phase_right, update_phase_right_with.
  rewrite He. cbn [float]. rewrite Hx. now destruct b.
Qed.

Lemma reject_phase_right_eq (st : App) :
  reject_phase_right st
  = phase_right_slider_set (phase_right st)
      (set_phase_right_entry (shown_1f (phase_right st))
         (messagebox
            (showerror "Invalid Value"
               "Please enter a valid number between 0 and 360 for Phase Right.")
            st)).
Proof. reflexivity. Qed.

(** A rejection: one dialog; the slider goes to the stored value clipped
    to the scale, and its command stores that value rounded to one
    decimal. *)
Lemma reject_phase_right_parameters (st : App) :
  parameters (reject_phase_right st)
  = (frequency_left st, frequency_right st, phase_left st,
     format_1f (clip 0 (phase_right st) 360), volume st)
  /\ dialogs (reject_phase_right st)
     = (dialogs st
        ++ [showerror "Invalid Value"
              "Please enter a valid number between 0 and 360 for Phase Right."])%list
  /\ configurations (reject_phase_right st) = configurations st
  /\ (stream (reject_phase_right st), start_button (reject_phase_right st),
      stop_button (reject_phase_right st))
     = (stream st, start_button st, stop_button st)
  /\ phase_right_entry (reject_phase_right st) = shown_1f (clip 0 (phase_right st) 360)
  /\ phase_right_slider (reject_phase_right st) = clip 0 (phase_right st) 360.
Proof.
  rewrite reject_phase_right_eq, phase_right_slider_set_eq. repeat split.
Qed.

(** The same for an accepted number. *)
Lemma update_phase_right_accepts (b : bool) (st : App) (x : Q) :
  phase_right_entry st = Numeral (Finite x) ->
  between 0 x 360 = true ->
  parameters (update_phase_right b st)
  = (frequency_left st, frequency_right st, phase_left st,
     if b then x else format_1f x, volume st)
  /\ dialogs (update_phase_right b st) = dialogs st
  /\ configurations (update_phase_right b st) = configurations st
  /\ (stream (update_phase_right b st), start_button (update_phase_right b st),
      stop_button (update_phase_right b st))
     = (stream st, start_button st, stop_button st).
Proof.
  intros He Hx. rewrite (update_phase_right_accepted b st He Hx).
  destruct b; [repeat split | ].
  rewrite phase_right_slider_set_eq, (clip_inside _ _ _ Hx). repeat split.
Qed.

(** C6: what the frequency handlers do at the bounds.  On both channels
    and whatever [from_slider] is, a field holding 0, 0.999 or 20000.1 is
    rejected with an error dialog, and one holding 1 or 20000 is accepted
    with none.  But a rejection does not leave the stored frequency as it
    was: [slider.set] in the [except] branch runs the command of the slider,
    which stores the frequency again, rounded to one decimal.  After 100.04
    has been typed and accepted, typing 0 shows the error and leaves 100 as
    the stored frequency. *)
Theorem rejection_rounds_the_stored_frequency (from_slider : bool) (st : App) :
  Forall
    (fun x =>
       let l :=
         update_frequency_left from_slider
           (set_frequency_left_entry (Numeral (Finite x)) st) in
       let r :=
         update_frequency_right from_slider
           (set_frequency_right_entry (Numeral (Finite x)) st) in
       (parameters l
        = (format_1f (clip 1 (frequency_left st) 20000), frequency_right st,
           phase_left st, phase_right st, volume st)
        /\ dialogs l
           = (dialogs st
              ++ [showerror "Invalid Value"
                    "Please enter a valid number between 1 and 20000 for Frequency Left."])%list)
       /\ (parameters r
           = (frequency_left st, format_1f (clip 1 (frequency_right st) 20000),
              phase_left st, phase_right st, volume st)
           /\ dialogs r
              = (dialogs st
                 ++ [showerror "Invalid Value"
                       "Please enter a valid number between 1 and 20000 for Frequency Right."])%list))
    [0; 0.999; 20000.1]
  /\ Forall
       (fun x =>
          let l :=
            update_frequency_left from_slider
              (set_frequency_left_entry (Numeral (Finite x)) st) in
          let r :=
            update_frequency_right from_slider
              (set_frequency_right_entry (Numeral (Finite x)) st) in
          (parameters l
           = ((if from_slider then x else format_1f x), frequency_right st,
              phase_left st, phase_right st, volume st)
           /\ dialogs l = dialogs st)
          /\ (parameters r
              = (frequency_left st, (if from_slider then x else format_1f x),
                 phase_left st, phase_right st, volume st)
              /\ dialogs r = dialogs st))
       [1; 20000]
  /\ (let typed :=
        handle 44100 (Return_frequency_left (Numeral (Finite 100.04)))
          (initial []) in
      let after :=
        handle 44100 (Return_frequency_left (Numeral (Finite 0))) typed in
      frequency_left typed = 100.04
      /\ dialogs after
         = [showerror "Invalid Value"
              "Please enter a valid number between 1 and 20000 for Frequency Left."]
      /\ frequency_left after == 100
      /\ ~ frequency_left after == frequency_left typed).
Proof.
  split; [ | split].
  - repeat apply Forall_cons; try apply Forall_nil; cbv zeta.
    all: rewrite update_frequency_left_rejects
      by (cbn; intros x E; injection E as <-; reflexivity).
    all: rewrite update_frequency_right_rejects
      by (cbn; intros x E; injection E as <-; reflexivity).
    all: match goal with
         | |- context [reject_frequency_left ?s] =>
             destruct (reject_frequency_left_parameters s) as (Pl & Dl & _)
         end.
    all: match goal with
         | |- context [reject_frequency_right ?s] =>
             destruct (reject_frequency_right_parameters s) as (Pr & Dr & _)
         end.
    all: split; split; assumption.
  - repeat apply Forall_cons; try apply Forall_nil; cbv zeta.
    all: match goal with
         | |- context [Numeral (Finite ?x)] =>
             destruct (@update_frequency_left_accepts from_slider
                         (set_frequency_left_entry (Numeral (Finite x)) st)
                         x eq_refl eq_refl) as (Pl & Dl & _);
             destruct (@update_frequency_right_accepts from_slider
                         (set_frequency_right_entry (Numeral (Finite x)) st)
                         x eq_refl eq_refl) as (Pr & Dr & _)
         end.
    all: split; split; assumption.
  - cbv zeta. split; [reflexivity | ]. split; [reflexivity | ].
    split; [reflexivity | ]. intros H. vm_compute in H. discriminate H.
Qed.

(** ** Volume *)

Lemma between_percentage (val : Q) :
  between 0 (val / 100) 1 = between 0 val 100.
Proof.
  destruct val as [n d].
  unfold between, Qle_bool, Qdiv, Qmult, Qinv; simpl.
  apply eq_iff_eq_true.
  rewrite !andb_true_iff, !Z.leb_le, Pos2Z.inj_mul. lia.
Qed.

(** C7, as the code has it: [update_volume] checks nothing.  Whatever the
    input and the prior volume, the stored volume becomes the input divided
    by 100, no dialog is shown and the other parameters are untouched; the
    new volume is in [0, 1] exactly when the input is in [0, 100]. *)
Theorem update_volume_stores_percentage (val : Q) (st : App) :
  let st' := update_volume val st in
  volume st' = val / 100
  /\ between 0 (volume st') 1 = between 0 val 100
  /\ dialogs st' = dialogs st
  /\ (frequency_left st', frequency_right st', phase_left st', phase_right st')
     = (frequency_left st, frequency_right st, phase_left st, phase_right st).
Proof.
  cbv zeta. unfold update_volume.
  destruct (volume_value_label st) as [l | ] eqn:E; simpl; rewrite E; simpl;
    repeat split; apply between_percentage.
Qed.

(** C7 fails as stated: [update_volume(150)] on the initial state shows no
    dialog and replaces the volume 0.2 by 1.5. *)
Lemma update_volume_150_not_rejected :
  let st := update_volume 150 (initial []) in
  volume st == 1.5
  /\ ~ volume st == volume (initial [])
  /\ dialogs st = dialogs (initial []).
Proof.
  simpl. repeat split. intros H. discriminate H.
Qed.

(** ** The range of the stored parameters *)

Lemma in_range_spec (st : App) :
  in_range st = true <->
  between 1 (frequency_left st) 20000 = true
  /\ between 1 (frequency_right st) 20000 = true
  /\ between 0 (phase_left st) 360 = true
  /\ between 0 (phase_right st) 360 = true
  /\ between 0 (volume st) 1 = true.
Proof. unfold in_range. rewrite !andb_true_iff. tauto. Qed.

Lemma in_range_parameters (st : App) :
  in_range st
  = (let '(fl, fr, pl, pr, v) := parameters st in
     between 1 fl 20000 && between 1 fr 20000 && between 0 pl 360
     && between 0 pr 360 && between 0 v 1).
Proof. reflexivity. Qed.

Lemma initial_in_range (rows : list configuration) :
  in_range (initial rows) = true.
Proof. reflexivity. Qed.

(** The range test on five parameters. *)
Lemma in_range_of_parameters (st : App) (fl fr pl pr v : Q) :
  parameters st = (fl, fr, pl, pr, v) ->
  between 1 fl 20000 = true ->
  between 1 fr 20000 = true ->
  between 0 pl 360 = true ->
  between 0 pr 360 = true ->
  between 0 v 1 = true ->
  in_range st = true.
Proof.
  intros P H1 H2 H3 H4 H5. rewrite in_range_parameters, P.
  now rewrite H1, H2, H3, H4, H5.
Qed.

(** [update_frequency_left] keeps the range, whatever the field holds. *)
Lemma update_frequency_left_in_range (b : bool) (st : App) :
  in_range st = true -> in_range (update_frequency_left b st) = true.
Proof.
  intros H. apply in_range_spec in H. destruct H as (Hfl & Hfr & Hpl & Hpr & Hv).
  destruct (frequency_left_entry st) as [[x | n | ] | s] eqn:E.
  2-4: rewrite update_frequency_left_rejects by (intros y Ey; congruence);
    destruct (reject_frequency_left_parameters st) as (P & _);
    apply (@in_range_of_parameters _ _ _ _ _ _ P); try assumption;
    apply format_1f_frequency, clip_between; discriminate.
  destruct (between 1 x 20000) eqn:B.
  - destruct (@update_frequency_left_accepts b st _ E B) as (P & _).
    apply (@in_range_of_parameters _ _ _ _ _ _ P); try assumption.
    destruct b; [exact B | now apply format_1f_frequency].
  - rewrite update_frequency_left_rejects by (intros y Ey; congruence).
    destruct (reject_frequency_left_parameters st) as (P & _).
    apply (@in_range_of_parameters _ _ _ _ _ _ P); try assumption.
    apply format_1f_frequency, clip_between. discriminate.
Qed.

(** It touches neither the table nor the stream and its buttons. *)
Lemma update_frequency_left_frame (b : bool) (st : App) :
  configurations (update_frequency_left b st) = configurations st
  /\ (stream (update_frequency_left b st), start_button (update_frequency_left b st),
      stop_button (update_frequency_left b st))
     = (stream st, start_button st, stop_button st).
Proof.
  destruct (frequency_left_entry st) as [[x | n | ] | s] eqn:E.
  2-4: rewrite update_frequency_left_rejects by (intros y Ey; congruence);
    destruct (reject_frequency_left_parameters st) as (_ & _ & C & S & _);
    now split.
  destruct (between 1 x 20000) eqn:B.
  - destruct (@update_frequency_left_accepts b st _ E B) as (_ & _ & C & S). now split.
  - rewrite update_frequency_left_rejects by (intros y Ey; congruence).
    destruct (reject_frequency_left_parameters st) as (_ & _ & C & S & _). now split.
Qed.

Lemma update_frequency_left_configurations (b : bool) (st : App) :
  configurations (update_frequency_left b st) = configurations st.
Proof. apply update_frequency_left_frame. Qed.


(** [update_frequency_right] keeps the range, whatever the field holds. *)
Lemma update_frequency_right_in_range (b : bool) (st : App) :
  in_range st = true -> in_range (update_frequency_right b st) = true.
Proof.
  intros H. apply in_range_spec in H. destruct H as (Hfl & Hfr & Hpl & Hpr & Hv).
  destruct (frequency_right_entry st) as [[x | n | ] | s] eqn:E.
  2-4: rewrite update_frequency_right_rejects by (intros y Ey; congruence);
    destruct (reject_frequency_right_parameters st) as (P & _);
    apply (@in_range_of_parameters _ _ _ _ _ _ P); try assumption;
    apply format_1f_frequency, clip_between; discriminate.
  destruct (between 1 x 20000) eqn:B.
  - destruct (@update_frequency_right_accepts b st _ E B) as (P & _).
    apply (@in_range_of_parameters _ _ _ _ _ _ P); try assumption.
    destruct b; [exact B | now apply format_1f_frequency].
  - rewrite update_frequency_right_rejects by (intros y Ey; congruence).
    destruct (reject_frequency_right_parameters st) as (P & _).
    apply (@in_range_of_parameters _ _ _ _ _ _ P); try assumption.
    apply format_1f_frequency, clip_between. discriminate.
Qed.

(** It touches neither the table nor the stream and its buttons. *)
Lemma update_frequency_right_frame (b : bool) (st : App) :
  configurations (update_frequency_right b st) = configurations st
  /\ (stream (update_frequency_right b st), start_button (update_frequency_right b st),
      stop_button (update_frequency_right b st))
     = (stream st, start_button st, stop_button st).
Proof.
  destruct (frequency_right_entry st) as [[x | n | ] | s] eqn:E.
  2-4: rewrite update_frequency_right_rejects by (intros y Ey; congruence);
    destruct (reject_frequency_right_parameters st) as (_ & _ & C & S & _);
    now split.
  destruct (between 1 x 20000) eqn:B.
  - destruct (@update_frequency_right_accepts b st _ E B) as (_ & _ & C & S). now split.
  - rewrite update_frequency_right_rejects by (intros y Ey; congruence).
    destruct (reject_frequency_right_parameters st) as (_ & _ & C & S & _). now split.
Qed.

Lemma update_frequency_right_configurations (b : bool) (st : App) :
  configurations (update_frequency_right b st) = configurations st.
Proof. apply update_frequency_right_frame. Qed.


(** [update_phase_left] keeps the range, whatever the field holds. *)
Lemma update_phase_left_in_range (b : bool) (st : App) :
  in_range st = true -> in_range (update_phase_left b st) = true.
Proof.
  intros H. apply in_range_spec in H. destruct H as (Hfl & Hfr & Hpl & Hpr & Hv).
  destruct (phase_left_entry st) as [[x | n | ] | s] eqn:E.
  2-4: rewrite update_phase_left_rejects by (intros y Ey; congruence);
    destruct (reject_phase_left_parameters st) as (P & _);
    apply (@in_range_of_parameters _ _ _ _ _ _ P); try assumption;
    apply format_1f_phase, clip_between; discriminate.
  destruct (between 0 x 360) eqn:B.
  - destruct (@update_phase_left_accepts b st _ E B) as (P & _).
    apply (@in_range_of_parameters _ _ _ _ _ _ P); try assumption.
    destruct b; [exact B | now apply format_1f_phase].
  - rewrite update_phase_left_rejects by (intros y Ey; congruence).
    destruct (reject_phase_left_parameters st) as (P & _).
    apply (@in_range_of_parameters _ _ _ _ _ _ P); try assumption.
    apply format_1f_phase, clip_between. discriminate.
Qed.

(** It touches neither the table nor the stream and its buttons. *)
Lemma update_phase_left_frame (b : bool) (st : App) :
  configurations (update_phase_left b st) = configurations st
  /\ (stream (update_phase_left b st), start_button (update_phase_left b st),
      stop_button (update_phase_left b st))
     = (stream st, start_button st, stop_button st).
Proof.
  destruct (phase_left_entry st) as [[x | n | ] | s] eqn:E.
  2-4: rewrite update_phase_left_rejects by (intros y Ey; congruence);
    destruct (reject_phase_left_parameters st) as (_ & _ & C & S & _);
    now split.
  destruct (between 0 x 360) eqn:B.
  - destruct (@update_phase_left_accepts b st _ E B) as (_ & _ & C & S). now split.
  - rewrite update_phase_left_rejects by (intros y Ey; congruence).
    destruct (reject_phase_left_parameters st) as (_ & _ & C & S & _). now split.
Qed.

Lemma update_phase_left_configurations (b : bool) (st : App) :
  configurations (update_phase_left b st) = configurations st.
Proof. apply update_phase_left_frame. Qed.


(** [update_phase_right] keeps the range, whatever the field holds. *)
Lemma update_phase_right_in_range (b : bool) (st : App) :
  in_range st = true -> in_range (update_phase_right b st) = true.
Proof.
  intros H. apply in_range_spec in H. destruct H as (Hfl & Hfr & Hpl & Hpr & Hv).
  destruct (phase_right_entry st) as [[x | n | ] | s] eqn:E.
  2-4: rewrite update_phase_right_rejects by (intros y Ey; congruence);
    destruct (reject_phase_right_parameters st) as (P & _);
    apply (@in_range_of_parameters _ _ _ _ _ _ P); try assumption;
    apply format_1f_phase, clip_between; discriminate.
  destruct (between 0 x 360) eqn:B.
  - destruct (@update_phase_right_accepts b st _ E B) as (P & _).
    apply (@in_range_of_parameters _ _ _ _ _ _ P); try assumption.
    destruct b; [exact B | now apply format_1f_phase].
  - rewrite update_phase_right_rejects by (intros y Ey; congruence).
    destruct (reject_phase_right_parameters st) as (P & _).
    apply (@in_range_of_parameters _ _ _ _ _ _ P); try assumption.
    apply format_1f_phase, clip_between. discriminate.
Qed.

(** It touches neither the table nor the stream and its buttons. *)
Lemma update_phase_right_frame (b : bool) (st : App) :
  configurations (update_phase_right b st) = configurations st
  /\ (stream (update_phase_right b st), start_button (update_phase_right b st),
      stop_button (update_phase_right b st))
     = (stream st, start_button st, stop_button st).
Proof.
  destruct (phase_right_entry st) as [[x | n | ] | s] eqn:E.
  2-4: rewrite update_phase_right_rejects by (intros y Ey; congruence);
    destruct (reject_phase_right_parameters st) as (_ & _ & C & S & _);
    now split.
  destruct (between 0 x 360) eqn:B.
  - destruct (@update_phase_right_accepts b st _ E B) as (_ & _ & C & S). now split.
  - rewrite update_phase_right_rejects by (intros y Ey; congruence).
    destruct (reject_phase_right_parameters st) as (_ & _ & C & S & _). now split.
Qed.

Lemma update_phase_right_configurations (b : bool) (st : App) :
  configurations (update_phase_right b st) = configurations st.
Proof. apply update_phase_right_frame. Qed.

Lemma update_volume_in_range (val : Q) (st : App) :
  between 0 val 100 = true ->
  in_range st = true -> in_range (update_volume val st) = true.
Proof.
  intros Hv H.
  apply in_range_spec in H. destruct H as (? & ? & ? & ? & _).
  apply in_range_spec. unfold update_volume.
  destruct (volume_value_label st) as [l | ] eqn:E; simpl; rewrite E; simpl.
  all: rewrite between_percentage.
  all: repeat split; assumption.
Qed.

Lemma update_volume_configurations (val : Q) (st : App) :
  configurations (update_volume val st) = configurations st.
Proof.
  unfold update_volume. simpl. now destruct (volume_value_label st).
Qed.

(** ** Showing the parameters in the widgets *)

Lemma plot_waveforms_parameters (st : App) :
  parameters (plot_waveforms st) = parameters st.
Proof. reflexivity. Qed.

Lemma plot_waveforms_frame (st : App) :
  dialogs (plot_waveforms st) = dialogs st
  /\ configurations (plot_waveforms st) = configurations st
  /\ (stream (plot_waveforms st), start_button (plot_waveforms st),
      stop_button (plot_waveforms st))
     = (stream st, start_button st, stop_button st).
Proof. repeat split. Qed.

Lemma update_ui_values_steps (st : App) :
  update_ui_values st
  = plot_waveforms
      (show_volume
         (show_phase_right
            (show_phase_left
               (show_frequency_right (show_frequency_left st))))).
Proof.
  cbv beta zeta delta
    [update_ui_values show_volume show_phase_right show_phase_left
       show_frequency_right show_frequency_left].
  reflexivity.
Qed.

Lemma show_frequency_left_parameters (st : App) :
  parameters (show_frequency_left st)
  = (format_1f (clip 1 (frequency_left st) 20000), frequency_right st,
     phase_left st, phase_right st, volume st).
Proof.
  unfold show_frequency_left. cbv zeta. now rewrite frequency_left_slider_set_parameters.
Qed.

Lemma show_frequency_left_frame (st : App) :
  dialogs (show_frequency_left st) = dialogs st
  /\ configurations (show_frequency_left st) = configurations st
  /\ (stream (show_frequency_left st), start_button (show_frequency_left st),
      stop_button (show_frequency_left st))
     = (stream st, start_button st, stop_button st)
  /\ volume_value_label (show_frequency_left st) = volume_value_label st.
Proof.
  unfold show_frequency_left. cbv zeta.
  match goal with
  | |- context [frequency_left_slider_set ?v ?s] =>
      destruct (frequency_left_slider_set_frame v s) as (D & C & S & L)
  end.
  repeat split; assumption.
Qed.


Lemma show_frequency_right_parameters (st : App) :
  parameters (show_frequency_right st)
  = (frequency_left st, format_1f (clip 1 (frequency_right st) 20000),
     phase_left st, phase_right st, volume st).
Proof.
  unfold show_frequency_right. cbv zeta. now rewrite frequency_right_slider_set_parameters.
Qed.

Lemma show_frequency_right_frame (st : App) :
  dialogs (show_frequency_right st) = dialogs st
  /\ configurations (show_frequency_right st) = configurations st
  /\ (stream (show_frequency_right st), start_button (show_frequency_right st),
      stop_button (show_frequency_right st))
     = (stream st, start_button st, stop_button st)
  /\ volume_value_label (show_frequency_right st) = volume_value_label st.
Proof.
  unfold show_frequency_right. cbv zeta.
  match goal with
  | |- context [frequency_right_slider_set ?v ?s] =>
      destruct (frequency_right_slider_set_frame v s) as (D & C & S & L)
  end.
  repeat split; assumption.
Qed.


Lemma show_phase_left_parameters (st : App) :
  parameters (show_phase_left st)
  = (frequency_left st, frequency_right st,
     format_1f (clip 0 (phase_left st) 360), phase_right st, volume st).
Proof.
  unfold show_phase_left. cbv zeta. now rewrite phase_left_slider_set_parameters.
Qed.

Lemma show_phase_left_frame (st : App) :
  dialogs (show_phase_left st) = dialogs st
  /\ configurations (show_phase_left st) = configurations st
  /\ (stream (show_phase_left st), start_button (show_phase_left st),
      stop_button (show_phase_left st))
     = (stream st, start_button st, stop_button st)
  /\ volume_value_label (show_phase_left st) = volume_value_label st.
Proof.
  unfold show_phase_left. cbv zeta.
  match goal with
  | |- context [phase_left_slider_set ?v ?s] =>
      destruct (phase_left_slider_set_frame v s) as (D & C & S & L)
  end.
  repeat split; assumption.
Qed.


Lemma show_phase_right_parameters (st : App) :
  parameters (show_phase_right st)
  = (frequency_left st, frequency_right st, phase_left st,
     format_1f (clip 0 (phase_right st) 360), volume st).
Proof.
  unfold show_phase_right. cbv zeta. now rewrite phase_right_slider_set_parameters.
Qed.

Lemma show_phase_right_frame (st : App) :
  dialogs (show_phase_right st) = dialogs st
  /\ configurations (show_phase_right st) = configurations st
  /\ (stream (show_phase_right st), start_button (show_phase_right st),
      stop_button (show_phase_right st))
     = (stream st, start_button st, stop_button st)
  /\ volume_value_label (show_phase_right st) = volume_value_label st.
Proof.
  unfold show_phase_right. cbv zeta.
  match goal with
  | |- context [phase_right_slider_set ?v ?s] =>
      destruct (phase_right_slider_set_frame v s) as (D & C & S & L)
  end.
  repeat split; assumption.
Qed.

Lemma show_volume_parameters (st : App) :
  parameters (show_volume st)
  = (frequency_left st, frequency_right st, phase_left st, phase_right st,
     clip 0 (volume st * 100) 100 / 100).
Proof.
  unfold show_volume. cbv zeta.
  destruct (volume_value_label (volume_slider_set (volume st * 100) st));
    apply volume_slider_set_parameters.
Qed.

Lemma show_volume_frame (st : App) :
  dialogs (show_volume st) = dialogs st
  /\ configurations (show_volume st) = configurations st
  /\ (stream (show_volume st), start_button (show_volume st),
      stop_button (show_volume st))
     = (stream st, start_button st, stop_button st).
Proof.
  unfold show_volume. cbv zeta.
  destruct (volume_value_label (volume_slider_set (volume st * 100) st));
    apply volume_slider_set_frame.
Qed.

Lemma parameters_inv (st : App) (fl fr pl pr v : Q) :
  parameters st = (fl, fr, pl, pr, v) ->
  frequency_left st = fl /\ frequency_right st = fr /\ phase_left st = pl
  /\ phase_right st = pr /\ volume st = v.
Proof. unfold parameters. intros [= -> -> -> -> ->]. repeat split. Qed.

(** [update_ui_values] does not only show the parameters: through the
    commands of the sliders it stores them again, clipped and rounded. *)
Lemma update_ui_values_parameters (st : App) :
  parameters (update_ui_values st) = shown_parameters (parameters st).
Proof.
  rewrite update_ui_values_steps, plot_waveforms_parameters.
  pose proof (show_frequency_left_parameters st) as P1.
  set (s1 := show_frequency_left st) in *. clearbody s1.
  pose proof (show_frequency_right_parameters s1) as P2.
  set (s2 := show_frequency_right s1) in *. clearbody s2.
  pose proof (show_phase_left_parameters s2) as P3.
  set (s3 := show_phase_left s2) in *. clearbody s3.
  pose proof (show_phase_right_parameters s3) as P4.
  set (s4 := show_phase_right s3) in *. clearbody s4.
  rewrite show_volume_parameters.
  apply parameters_inv in P1, P2, P3, P4.
  destruct P1 as (A1 & A2 & A3 & A4 & A5).
  destruct P2 as (B1 & B2 & B3 & B4 & B5).
  destruct P3 as (C1 & C2 & C3 & C4 & C5).
  destruct P4 as (D1 & D2 & D3 & D4 & D5).
  unfold shown_parameters, parameters.
  rewrite D1, D2, D3, D4, D5, C1, C2, C3, C4, C5, B1, B2, B3, B4, B5,
    A1, A2, A3, A4, A5.
  reflexivity.
Qed.

Lemma update_ui_values_frame (st : App) :
  dialogs (update_ui_values st) = dialogs st
  /\ configurations (update_ui_values st) = configurations st
  /\ (stream (update_ui_values st), start_button (update_ui_values st),
      stop_button (update_ui_values st))
     = (stream st, start_button st, stop_button st).
Proof.
  rewrite update_ui_values_steps.
  destruct (plot_waveforms_frame
              (show_volume
                 (show_phase_right
                    (show_phase_left
                       (show_frequency_right (show_frequency_left st))))))
    as (D0 & C0 & S0).
  rewrite D0, C0, S0. clear D0 C0 S0.
  destruct (show_frequency_left_frame st) as (D1 & C1 & S1 & _).
  set (s1 := show_frequency_left st) in *. clearbody s1.
  destruct (show_frequency_right_frame s1) as (D2 & C2 & S2 & _).
  set (s2 := show_frequency_right s1) in *. clearbody s2.
  destruct (show_phase_left_frame s2) as (D3 & C3 & S3 & _).
  set (s3 := show_phase_left s2) in *. clearbody s3.
  destruct (show_phase_right_frame s3) as (D4 & C4 & S4 & _).
  set (s4 := show_phase_right s3) in *. clearbody s4.
  destruct (show_volume_frame s4) as (D5 & C5 & S5).
  rewrite D5, C5, S5, D4, C4, S4, D3, C3, S3, D2, C2, S2, D1, C1, S1.
  repeat split.
Qed.

(** Whatever parameters it starts from, it ends with parameters in
    range. *)
Lemma shown_parameters_in_range (st : App) (p : Q * Q * Q * Q * Q) :
  parameters st = shown_parameters p -> in_range st = true.
Proof.
  destruct p as [[[[fl fr] pl] pr] v]. unfold shown_parameters. intros P.
  apply (@in_range_of_parameters _ _ _ _ _ _ P).
  - apply format_1f_frequency, clip_between. discriminate.
  - apply format_1f_frequency, clip_between. discriminate.
  - apply format_1f_phase, clip_between. discriminate.
  - apply format_1f_phase, clip_between. discriminate.
  - rewrite between_percentage. apply clip_between. discriminate.
Qed.

(** ** Loading *)

(** Loading a found row: the row is stored and shown, so the parameters
    end as the shown values of the row. *)
Lemma load_found
    (listbox : list string) (i : nat) (rest : list nat) (st : App)
    (c : configuration) :
  find (fun c => String.eqb (config_name c) (nth i listbox ""%string))
    (configurations st) = Some c ->
  let st' := load_selected_config listbox (i :: rest) st in
  parameters st' = shown_parameters (config_parameters c)
  /\ dialogs st' = dialogs st
  /\ configurations st' = configurations st
  /\ (stream st', start_button st', stop_button st')
     = (stream st, start_button st, stop_button st).
Proof.
  intros F. cbv zeta. unfold load_selected_config. rewrite F.
  rewrite update_ui_values_parameters.
  match goal with
  | |- context [update_ui_values ?s] =>
      destruct (update_ui_values_frame s) as (D & C & S)
  end.
  rewrite D, C, S. repeat split.
Qed.

(** Loading keeps the range, whatever the rows hold. *)
Lemma load_selected_config_in_range
    (listbox : list string) (selection : list nat) (st : App) :
  in_range st = true ->
  in_range (load_selected_config listbox selection st) = true.
Proof.
  intros H. destruct selection as [ | i rest]; [exact H | ].
  destruct (find (fun c => String.eqb (config_name c)
                             (nth i listbox ""%string))
              (configurations st)) as [c | ] eqn:F.
  - destruct (@load_found listbox i rest st c F) as (P & _).
    exact (@shown_parameters_in_range _ _ P).
  - unfold load_selected_config. now rewrite F.
Qed.

Lemma load_selected_config_frame
    (listbox : list string) (selection : list nat) (st : App) :
  configurations (load_selected_config listbox selection st)
  = configurations st
  /\ (stream (load_selected_config listbox selection st),
      start_button (load_selected_config listbox selection st),
      stop_button (load_selected_config listbox selection st))
     = (stream st, start_button st, stop_button st).
Proof.
  destruct selection as [ | i rest]; [now split | ].
  destruct (find (fun c => String.eqb (config_name c)
                             (nth i listbox ""%string))
              (configurations st)) as [c | ] eqn:F.
  - destruct (@load_found listbox i rest st c F) as (_ & _ & C & S). now split.
  - unfold load_selected_config. rewrite F. now split.
Qed.

(** What the Load event does, by cases on the table. *)
Lemma handle_load
    (sampling_rate : positive) (selection : list nat) (st : App) :
  handle sampling_rate (Load selection) st
  = match configurations st with
    | [] =>
        messagebox
          (showinfo "No Configurations" "There are no saved configurations.")
          st
    | _ :: _ =>
        load_selected_config (name_order (names st)) selection st
    end.
Proof.
  cbn [handle]. unfold load_configuration, names.
  now destruct (configurations st).
Qed.

(** One event keeps the stored parameters in range, provided the volume
    slider reports a position of its scale. *)
Lemma handle_keeps_range
    (sampling_rate : positive) (e : event) (st : App) :
  in_range st = true ->
  within_scale e = true ->
  in_range (handle sampling_rate e st) = true.
Proof.
  intros H He.
  destruct e; try rewrite handle_load; cbn [handle within_scale] in *;
    unfold update_frequency_left_slider, update_frequency_right_slider,
      update_phase_left_slider, update_phase_right_slider.
  - now apply update_frequency_left_in_range.
  - now apply update_frequency_right_in_range.
  - now apply update_phase_left_in_range.
  - now apply update_phase_right_in_range.
  - now apply update_frequency_left_in_range.
  - now apply update_frequency_right_in_range.
  - now apply update_phase_left_in_range.
  - now apply update_phase_right_in_range.
  - now apply update_volume_in_range.
  - unfold save.
    destruct (String.eqb name ""); [exact H | ].
    destruct (existsb _ (configurations st)); exact H.
  - destruct (configurations st); [exact H | ].
    now apply load_selected_config_in_range.
  - unfold start_stream.
    destruct (match stream st with None => true | Some s => negb (active s) end);
      destruct dev; exact H.
  - unfold stop_stream.
    destruct (stream st) as [s | ]; [destruct (active s) | ]; exact H.
Qed.

(** C5: every event that can write the parameters (a frequency or phase
    field or slider, the volume slider, loading a saved configuration) keeps
    the stored frequencies in [1, 20000], the phases in [0, 360] and the
    volume in [0, 1], and so does every sequence of events.  The field
    handlers validate; the volume slider reports positions of its scale,
    from 0 to 100; and what loading stores is shown through the sliders,
    which clip it to their scales and run the handlers on it. *)
Theorem events_keep_range
    (sampling_rate : positive) (events : list event) (st : App) :
  in_range st = true ->
  forallb within_scale events = true ->
  in_range (run sampling_rate events st) = true.
Proof.
  revert st. induction events as [ | e events IH]; intros st H He.
  - exact H.
  - simpl in He. apply andb_true_iff in He. destruct He as [He Hes].
    exact (IH _ (@handle_keeps_range sampling_rate e st H He) Hes).
Qed.

Lemma events_keep_range_witness :
  in_range
    (run 44100
       [Move_volume 55; Return_frequency_left (Numeral (Finite 0.999));
        Save "quiet"; Move_frequency_right 440; Load [0%nat]]
       (initial [loud_row]))
  = true.
Proof.
  apply (@events_keep_range 44100 _ (initial [loud_row])); reflexivity.
Defined.

(** ** What a field handler does with any text *)

(** The two outcomes of [update_frequency_left]. *)
Lemma update_frequency_left_outcome (from_slider : bool) (st : App) :
  let l := update_frequency_left from_slider st in
  ((exists x,
       frequency_left_entry st = Numeral (Finite x)
       /\ (1 <= x /\ x <= 20000)
       /\ parameters l
          = ((if from_slider then x else format_1f x), frequency_right st,
             phase_left st, phase_right st, volume st)
       /\ dialogs l = dialogs st
       /\ frequency_left_slider l
          = (if from_slider then frequency_left_slider st else x)
       /\ canvas l = Some (current_plot l))
   \/ (~ (exists x,
             frequency_left_entry st = Numeral (Finite x)
             /\ (1 <= x /\ x <= 20000))
       /\ parameters l
          = (format_1f (clip 1 (frequency_left st) 20000),
             frequency_right st, phase_left st, phase_right st, volume st)
       /\ dialogs l
          = (dialogs st
             ++ [showerror "Invalid Value"
                   "Please enter a valid number between 1 and 20000 for Frequency Left."])%list
       /\ frequency_left_entry l = shown_1f (clip 1 (frequency_left st) 20000)
       /\ frequency_left_slider l = clip 1 (frequency_left st) 20000
       /\ canvas l = Some (current_plot l))).
Proof.
  cbv zeta.
  assert (R : (forall x, frequency_left_entry st = Numeral (Finite x) ->
                         between 1 x 20000 = false) ->
              ~ (exists x,
                    frequency_left_entry st = Numeral (Finite x)
                    /\ (1 <= x /\ x <= 20000))).
  { intros H (x & E & B). apply between_spec in B.
    rewrite (H x E) in B. discriminate B. }
  destruct (frequency_left_entry st) as [[x | n | ] | s] eqn:E.
  2-4: right; split; [apply R; intros y Ey; discriminate Ey | ];
    rewrite update_frequency_left_rejects by (intros y Ey; congruence);
    destruct (reject_frequency_left_parameters st) as (P & D & _ & _ & En & Sl);
    repeat split; try assumption;
    rewrite reject_frequency_left_eq, frequency_left_slider_set_eq; reflexivity.
  destruct (between 1 x 20000) eqn:B.
  - left. exists x.
    destruct (@update_frequency_left_accepts from_slider st x E B) as (P & D & _).
    split; [reflexivity | ]. split; [now apply between_spec | ].
    split; [exact P | ]. split; [exact D | ].
    rewrite (@update_frequency_left_accepted from_slider st x E B).
    destruct from_slider; [split; reflexivity | ].
    rewrite frequency_left_slider_set_eq. split; [ | reflexivity].
    cbn. now apply clip_inside.
  - right. split; [apply R; intros y [= <-]; exact B | ].
    rewrite update_frequency_left_rejects by (intros y Ey; congruence).
    destruct (reject_frequency_left_parameters st) as (P & D & _ & _ & En & Sl).
    repeat split; try assumption.
    rewrite reject_frequency_left_eq, frequency_left_slider_set_eq. reflexivity.
Qed.

(** The two outcomes of [update_frequency_right]. *)
Lemma update_frequency_right_outcome (from_slider : bool) (st : App) :
  let l := update_frequency_right from_slider st in
  ((exists x,
       frequency_right_entry st = Numeral (Finite x)
       /\ (1 <= x /\ x <= 20000)
       /\ parameters l
          = (frequency_left st, (if from_slider then x else format_1f x),
             phase_left st, phase_right st, volume st)
       /\ dialogs l = dialogs st
       /\ frequency_right_slider l
          = (if from_slider then frequency_right_slider st else x)
       /\ canvas l = Some (current_plot l))
   \/ (~ (exists x,
             frequency_right_entry st = Numeral (Finite x)
             /\ (1 <= x /\ x <= 20000))
       /\ parameters l
          = (frequency_left st,
             format_1f (clip 1 (frequency_right st) 20000), phase_left st, phase_right st, volume st)
       /\ dialogs l
          = (dialogs st
             ++ [showerror "Invalid Value"
                   "Please enter a valid number between 1 and 20000 for Frequency Right."])%list
       /\ frequency_right_entry l = shown_1f (clip 1 (frequency_right st) 20000)
       /\ frequency_right_slider l = clip 1 (frequency_right st) 20000
       /\ canvas l = Some (current_plot l))).
Proof.
  cbv zeta.
  assert (R : (forall x, frequency_right_entry st = Numeral (Finite x) ->
                         between 1 x 20000 = false) ->
              ~ (exists x,
                    frequency_right_entry st = Numeral (Finite x)
                    /\ (1 <= x /\ x <= 20000))).
  { intros H (x & E & B). apply between_spec in B.
    rewrite (H x E) in B. discriminate B. }
  destruct (frequency_right_entry st) as [[x | n | ] | s] eqn:E.
  2-4: right; split; [apply R; intros y Ey; discriminate Ey | ];
    rewrite update_frequency_right_rejects by (intros y Ey; congruence);
    destruct (reject_frequency_right_parameters st) as (P & D & _ & _ & En & Sl);
    repeat split; try assumption;
    rewrite reject_frequency_right_eq, frequency_right_slider_set_eq; reflexivity.
  destruct (between 1 x 20000) eqn:B.
  - left. exists x.
    destruct (@update_frequency_right_accepts from_slider st x E B) as (P & D & _).
    split; [reflexivity | ]. split; [now apply between_spec | ].
    split; [exact P | ]. split; [exact D | ].
    rewrite (@update_frequency_right_accepted from_slider st x E B).
    destruct from_slider; [split; reflexivity | ].
    rewrite frequency_right_slider_set_eq. split; [ | reflexivity].
    cbn. now apply clip_inside.
  - right. split; [apply R; intros y [= <-]; exact B | ].
    rewrite update_frequency_right_rejects by (intros y Ey; congruence).
    destruct (reject_frequency_right_parameters st) as (P & D & _ & _ & En & Sl).
    repeat split; try assumption.
    rewrite reject_frequency_right_eq, frequency_right_slider_set_eq. reflexivity.
Qed.

(** The two outcomes of [update_phase_left]. *)
Lemma update_phase_left_outcome (from_slider : bool) (st : App) :
  let l := update_phase_left from_slider st in
  ((exists x,
       phase_left_entry st = Numeral (Finite x)
       /\ (0 <= x /\ x <= 360)
       /\ parameters l
          = (frequency_left st, frequency_right st,
             (if from_slider then x else format_1f x), phase_right st, volume st)
       /\ dialogs l = dialogs st
       /\ phase_left_slider l
          = (if from_slider then phase_left_slider st else x)
       /\ canvas l = Some (current_plot l))
   \/ (~ (exists x,
             phase_left_entry st = Numeral (Finite x)
             /\ (0 <= x /\ x <= 360))
       /\ parameters l
          = (frequency_left st, frequency_right st,
             format_1f (clip 0 (phase_left st) 360), phase_right st, volume st)
       /\ dialogs l
          = (dialogs st
             ++ [showerror "Invalid Value"
                   "Please enter a valid number between 0 and 360 for Phase Left."])%list
       /\ phase_left_entry l = shown_1f (clip 0 (phase_left st) 360)
       /\ phase_left_slider l = clip 0 (phase_left st) 360
       /\ canvas l = Some (current_plot l))).
Proof.
  cbv zeta.
  assert (R : (forall x, phase_left_entry st = Numeral (Finite x) ->
                         between 0 x 360 = false) ->
              ~ (exists x,
                    phase_left_entry st = Numeral (Finite x)
                    /\ (0 <= x /\ x <= 360))).
  { intros H (x & E & B). apply between_spec in B.
    rewrite (H x E) in B. discriminate B. }
  destruct (phase_left_entry st) as [[x | n | ] | s] eqn:E.
  2-4: right; split; [apply R; intros y Ey; discriminate Ey | ];
    rewrite update_phase_left_rejects by (intros y Ey; congruence);
    destruct (reject_phase_left_parameters st) as (P & D & _ & _ & En & Sl);
    repeat split; try assumption;
    rewrite reject_phase_left_eq, phase_left_slider_set_eq; reflexivity.
  destruct (between 0 x 360) eqn:B.
  - left. exists x.
    destruct (@update_phase_left_accepts from_slider st x E B) as (P & D & _).
    split; [reflexivity | ]. split; [now apply between_spec | ].
    split; [exact P | ]. split; [exact D | ].
    rewrite (@update_phase_left_accepted from_slider st x E B).
    destruct from_slider; [split; reflexivity | ].
    rewrite phase_left_slider_set_eq. split; [ | reflexivity].
    cbn. now apply clip_inside.
  - right. split; [apply R; intros y [= <-]; exact B | ].
    rewrite update_phase_left_rejects by (intros y Ey; congruence).
    destruct (reject_phase_left_parameters st) as (P & D & _ & _ & En & Sl).
    repeat split; try assumption.
    rewrite reject_phase_left_eq, phase_left_slider_set_eq. reflexivity.
Qed.

(** The two outcomes of [update_phase_right]. *)
Lemma update_phase_right_outcome (from_slider : bool) (st : App) :
  let l := update_phase_right from_slider st in
  ((exists x,
       phase_right_entry st = Numeral (Finite x)
       /\ (0 <= x /\ x <= 360)
       /\ parameters l
          = (frequency_left st, frequency_right st, phase_left st,
             (if from_slider then x else format_1f x), volume st)
       /\ dialogs l = dialogs st
       /\ phase_right_slider l
          = (if from_slider then phase_right_slider st else x)
       /\ canvas l = Some (current_plot l))
   \/ (~ (exists x,
             phase_right_entry st = Numeral (Finite x)
             /\ (0 <= x /\ x <= 360))
       /\ parameters l
          = (frequency_left st, frequency_right st, phase_left st,
             format_1f (clip 0 (phase_right st) 360), volume st)
       /\ dialogs l
          = (dialogs st
             ++ [showerror "Invalid Value"
                   "Please enter a valid number between 0 and 360 for Phase Right."])%list
       /\ phase_right_entry l = shown_1f (clip 0 (phase_right st) 360)
       /\ phase_right_slider l = clip 0 (phase_right st) 360
       /\ canvas l = Some (current_plot l))).
Proof.
  cbv zeta.
  assert (R : (forall x, phase_right_entry st = Numeral (Finite x) ->
                         between 0 x 360 = false) ->
              ~ (exists x,
                    phase_right_entry st = Numeral (Finite x)
                    /\ (0 <= x /\ x <= 360))).
  { intros H (x & E & B). apply between_spec in B.
    rewrite (H x E) in B. discriminate B. }
  destruct (phase_right_entry st) as [[x | n | ] | s] eqn:E.
  2-4: right; split; [apply R; intros y Ey; discriminate Ey | ];
    rewrite update_phase_right_rejects by (intros y Ey; congruence);
    destruct (reject_phase_right_parameters st) as (P & D & _ & _ & En & Sl);
    repeat split; try assumption;
    rewrite reject_phase_right_eq, phase_right_slider_set_eq; reflexivity.
  destruct (between 0 x 360) eqn:B.
  - left. exists x.
    destruct (@update_phase_right_accepts from_slider st x E B) as (P & D & _).
    split; [reflexivity | ]. split; [now apply between_spec | ].
    split; [exact P | ]. split; [exact D | ].
    rewrite (@update_phase_right_accepted from_slider st x E B).
    destruct from_slider; [split; reflexivity | ].
    rewrite phase_right_slider_set_eq. split; [ | reflexivity].
    cbn. now apply clip_inside.
  - right. split; [apply R; intros y [= <-]; exact B | ].
    rewrite update_phase_right_rejects by (intros y Ey; congruence).
    destruct (reject_phase_right_parameters st) as (P & D & _ & _ & En & Sl).
    repeat split; try assumption.
    rewrite reject_phase_right_eq, phase_right_slider_set_eq. reflexivity.
Qed.

(** X1: a frequency field is accepted exactly when its text is a finite
    number from 1 to 20000.  Then no dialog is shown and the plot is
    redrawn; called from the field ([from_slider] true, as [bind] and the
    slider command call it) the handler stores the number and leaves the
    slider, called with [from_slider] false it puts the slider on the number
    and the command of the slider stores the number rounded to one decimal.
    Any other text (a number out of range, nan, an infinity, something that
    is no number) is rejected: one error dialog, the slider put on the
    stored frequency clipped to the scale, the field showing that value to
    one decimal, and that value, so rounded, stored as the frequency.  The
    other four parameters stay as they were in both cases. *)
Theorem frequency_field_outcome (from_slider : bool) (st : App) :
  let l := update_frequency_left from_slider st in
  let r := update_frequency_right from_slider st in
  ((exists x,
       frequency_left_entry st = Numeral (Finite x)
       /\ (1 <= x /\ x <= 20000)
       /\ parameters l
          = ((if from_slider then x else format_1f x), frequency_right st,
             phase_left st, phase_right st, volume st)
       /\ dialogs l = dialogs st
       /\ frequency_left_slider l
          = (if from_slider then frequency_left_slider st else x)
       /\ canvas l = Some (current_plot l))
   \/ (~ (exists x,
             frequency_left_entry st = Numeral (Finite x)
             /\ (1 <= x /\ x <= 20000))
       /\ parameters l
          = (format_1f (clip 1 (frequency_left st) 20000),
             frequency_right st, phase_left st, phase_right st, volume st)
       /\ dialogs l
          = (dialogs st
             ++ [showerror "Invalid Value"
                   "Please enter a valid number between 1 and 20000 for Frequency Left."])%list
       /\ frequency_left_entry l = shown_1f (clip 1 (frequency_left st) 20000)
       /\ frequency_left_slider l = clip 1 (frequency_left st) 20000
       /\ canvas l = Some (current_plot l)))
  /\
  ((exists x,
       frequency_right_entry st = Numeral (Finite x)
       /\ (1 <= x /\ x <= 20000)
       /\ parameters r
          = (frequency_left st, (if from_slider then x else format_1f x),
             phase_left st, phase_right st, volume st)
       /\ dialogs r = dialogs st
       /\ frequency_right_slider r
          = (if from_slider then frequency_right_slider st else x)
       /\ canvas r = Some (current_plot r))
   \/ (~ (exists x,
             frequency_right_entry st = Numeral (Finite x)
             /\ (1 <= x /\ x <= 20000))
       /\ parameters r
          = (frequency_left st,
             format_1f (clip 1 (frequency_right st) 20000), phase_left st, phase_right st, volume st)
       /\ dialogs r
          = (dialogs st
             ++ [showerror "Invalid Value"
                   "Please enter a valid number between 1 and 20000 for Frequency Right."])%list
       /\ frequency_right_entry r = shown_1f (clip 1 (frequency_right st) 20000)
       /\ frequency_right_slider r = clip 1 (frequency_right st) 20000
       /\ canvas r = Some (current_plot r))).
Proof.
  split; [apply update_frequency_left_outcome | apply update_frequency_right_outcome].
Qed.

(** X2: a phase field is accepted exactly when its text is a finite number
    from 0 to 360, both ends included.  Then no dialog is shown; the phase
    stored is the number, or, when the handler sets the slider
    ([from_slider] false), the number rounded to one decimal.  Any other
    text is rejected with one error dialog; the slider is put on the stored
    phase clipped to the scale, the field shows that value to one decimal
    and that value, so rounded, is stored as the phase.  The other four
    parameters stay as they were. *)
Theorem phase_field_outcome (from_slider : bool) (st : App) :
  let l := update_phase_left from_slider st in
  let r := update_phase_right from_slider st in
  ((exists x,
       phase_left_entry st = Numeral (Finite x)
       /\ (0 <= x /\ x <= 360)
       /\ parameters l
          = (frequency_left st, frequency_right st,
             (if from_slider then x else format_1f x), phase_right st, volume st)
       /\ dialogs l = dialogs st
       /\ phase_left_slider l
          = (if from_slider then phase_left_slider st else x)
       /\ canvas l = Some (current_plot l))
   \/ (~ (exists x,
             phase_left_entry st = Numeral (Finite x)
             /\ (0 <= x /\ x <= 360))
       /\ parameters l
          = (frequency_left st, frequency_right st,
             format_1f (clip 0 (phase_left st) 360), phase_right st, volume st)
       /\ dialogs l
          = (dialogs st
             ++ [showerror "Invalid Value"
                   "Please enter a valid number between 0 and 360 for Phase Left."])%list
       /\ phase_left_entry l = shown_1f (clip 0 (phase_left st) 360)
       /\ phase_left_slider l = clip 0 (phase_left st) 360
       /\ canvas l = Some (current_plot l)))
  /\
  ((exists x,
       phase_right_entry st = Numeral (Finite x)
       /\ (0 <= x /\ x <= 360)
       /\ parameters r
          = (frequency_left st, frequency_right st, phase_left st,
             (if from_slider then x else format_1f x), volume st)
       /\ dialogs r = dialogs st
       /\ phase_right_slider r
          = (if from_slider then phase_right_slider st else x)
       /\ canvas r = Some (current_plot r))
   \/ (~ (exists x,
             phase_right_entry st = Numeral (Finite x)
             /\ (0 <= x /\ x <= 360))
       /\ parameters r
          = (frequency_left st, frequency_right st, phase_left st,
             format_1f (clip 0 (phase_right st) 360), volume st)
       /\ dialogs r
          = (dialogs st
             ++ [showerror "Invalid Value"
                   "Please enter a valid number between 0 and 360 for Phase Right."])%list
       /\ phase_right_entry r = shown_1f (clip 0 (phase_right st) 360)
       /\ phase_right_slider r = clip 0 (phase_right st) 360
       /\ canvas r = Some (current_plot r))).
Proof.
  split; [apply update_phase_left_outcome | apply update_phase_right_outcome].
Qed.
(** ** The sliders and the fields *)

(** X3: a slider inside its scale is never rejected.  For a frequency
    position from 1 to 20000 and a phase position from 0 to 360, each of the
    four slider commands stores the position rounded to one decimal in its
    own parameter, leaves the other four as they were and shows no
    dialog. *)
Theorem sliders_within_scale_accepted (f p : Q) (st : App) :
  between 1 f 20000 = true ->
  between 0 p 360 = true ->
  let fl := update_frequency_left_slider f st in
  let fr := update_frequency_right_slider f st in
  let pl := update_phase_left_slider p st in
  let pr := update_phase_right_slider p st in
  (parameters fl
   = (format_1f f, frequency_right st, phase_left st, phase_right st,
      volume st)
   /\ dialogs fl = dialogs st)
  /\ (parameters fr
      = (frequency_left st, format_1f f, phase_left st, phase_right st,
         volume st)
      /\ dialogs fr = dialogs st)
  /\ (parameters pl
      = (frequency_left st, frequency_right st, format_1f p, phase_right st,
         volume st)
      /\ dialogs pl = dialogs st)
  /\ (parameters pr
      = (frequency_left st, frequency_right st, phase_left st, format_1f p,
         volume st)
      /\ dialogs pr = dialogs st).
Proof.
  intros Hf Hp. cbv zeta.
  apply format_1f_frequency in Hf. apply format_1f_phase in Hp.
  unfold update_frequency_left_slider, update_frequency_right_slider,
    update_phase_left_slider, update_phase_right_slider.
  destruct (@update_frequency_left_accepts true
              (set_frequency_left_entry (shown_1f f) st) (format_1f f)
              eq_refl Hf) as (P1 & D1 & _).
  destruct (@update_frequency_right_accepts true
              (set_frequency_right_entry (shown_1f f) st) (format_1f f)
              eq_refl Hf) as (P2 & D2 & _).
  destruct (@update_phase_left_accepts true
              (set_phase_left_entry (shown_1f p) st) (format_1f p)
              eq_refl Hp) as (P3 & D3 & _).
  destruct (@update_phase_right_accepts true
              (set_phase_right_entry (shown_1f p) st) (format_1f p)
              eq_refl Hp) as (P4 & D4 & _).
  repeat apply conj; assumption.
Qed.

Lemma sliders_within_scale_accepted_witness :
  parameters (update_frequency_left_slider 440.26 (initial []))
  = (format_1f 440.26, 104, 0, 0, 0.2)
  /\ dialogs (update_frequency_left_slider 440.26 (initial [])) = [].
Proof.
  exact (proj1 (@sliders_within_scale_accepted 440.26 90 (initial [])
                  eq_refl eq_refl)).
Defined.

(** X4: after a rejection the field is left holding a text the handler
    accepts.  With the stored frequency (or phase) in range, running the
    handler again on the field as the rejection left it shows no second
    dialog and stores the stored value rounded to one decimal. *)
Theorem rejected_field_is_acceptable (b : bool) (st : App) :
  in_range st = true ->
  (parameters (update_frequency_left b (reject_frequency_left st))
   = (format_1f (frequency_left st), frequency_right st, phase_left st,
      phase_right st, volume st)
   /\ dialogs (update_frequency_left b (reject_frequency_left st))
      = dialogs (reject_frequency_left st))
  /\ (parameters (update_frequency_right b (reject_frequency_right st))
      = (frequency_left st, format_1f (frequency_right st), phase_left st,
         phase_right st, volume st)
      /\ dialogs (update_frequency_right b (reject_frequency_right st))
         = dialogs (reject_frequency_right st))
  /\ (parameters (update_phase_left b (reject_phase_left st))
      = (frequency_left st, frequency_right st, format_1f (phase_left st),
         phase_right st, volume st)
      /\ dialogs (update_phase_left b (reject_phase_left st))
         = dialogs (reject_phase_left st))
  /\ (parameters (update_phase_right b (reject_phase_right st))
      = (frequency_left st, frequency_right st, phase_left st,
         format_1f (phase_right st), volume st)
      /\ dialogs (update_phase_right b (reject_phase_right st))
         = dialogs (reject_phase_right st)).
Proof.
  intros H. apply in_range_spec in H. destruct H as (Hfl & Hfr & Hpl & Hpr & _).
  destruct (reject_frequency_left_parameters st)
    as (P1 & _ & _ & _ & E1 & _).
  destruct (reject_frequency_right_parameters st)
    as (P2 & _ & _ & _ & E2 & _).
  destruct (reject_phase_left_parameters st) as (P3 & _ & _ & _ & E3 & _).
  destruct (reject_phase_right_parameters st) as (P4 & _ & _ & _ & E4 & _).
  rewrite (@clip_inside _ _ _ Hfl) in P1, E1. rewrite (@clip_inside _ _ _ Hfr) in P2, E2.
  rewrite (@clip_inside _ _ _ Hpl) in P3, E3. rewrite (@clip_inside _ _ _ Hpr) in P4, E4.
  apply parameters_inv in P1, P2, P3, P4.
  destruct P1 as (A1 & A2 & A3 & A4 & A5).
  destruct P2 as (B1 & B2 & B3 & B4 & B5).
  destruct P3 as (C1 & C2 & C3 & C4 & C5).
  destruct P4 as (D1 & D2 & D3 & D4 & D5).
  apply format_1f_frequency in Hfl, Hfr. apply format_1f_phase in Hpl, Hpr.
  destruct (@update_frequency_left_accepts b (reject_frequency_left st)
              (format_1f (frequency_left st)) E1 Hfl) as (Q1 & R1 & _).
  destruct (@update_frequency_right_accepts b (reject_frequency_right st)
              (format_1f (frequency_right st)) E2 Hfr) as (Q2 & R2 & _).
  destruct (@update_phase_left_accepts b (reject_phase_left st)
              (format_1f (phase_left st)) E3 Hpl) as (Q3 & R3 & _).
  destruct (@update_phase_right_accepts b (reject_phase_right st)
              (format_1f (phase_right st)) E4 Hpr) as (Q4 & R4 & _).
  rewrite format_1f_again in Q1, Q2, Q3, Q4.
  rewrite A2, A3, A4, A5 in Q1. rewrite B1, B3, B4, B5 in Q2.
  rewrite C1, C2, C4, C5 in Q3. rewrite D1, D2, D3, D5 in Q4.
  repeat apply conj; try assumption.
  - now destruct b.
  - now destruct b.
  - now destruct b.
  - now destruct b.
Qed.

Lemma rejected_field_is_acceptable_witness :
  parameters
    (update_frequency_left true (reject_frequency_left (initial [])))
  = (format_1f 100, 104, 0, 0, 0.2).
Proof.
  exact (proj1 (proj1 (@rejected_field_is_acceptable true (initial [])
                         eq_refl))).
Defined.

(** X5: typing an accepted number in a field and pressing Return stores
    it but leaves the slider of that field where it was.  The field
    handlers are bound with [bind], which calls them with the event as
    [from_slider]; called with [from_slider] false, the same handlers move
    the slider to the new value. *)
Theorem accepted_field_leaves_slider
    (sampling_rate : positive) (f p : Q) (st : App) :
  between 1 f 20000 = true ->
  between 0 p 360 = true ->
  let typed := fun x => Numeral (Finite x) in
  let fl := handle sampling_rate (Return_frequency_left (typed f)) st in
  let fr := handle sampling_rate (Return_frequency_right (typed f)) st in
  let pl := handle sampling_rate (Return_phase_left (typed p)) st in
  let pr := handle sampling_rate (Return_phase_right (typed p)) st in
  (frequency_left fl = f
   /\ frequency_left_slider fl = frequency_left_slider st
   /\ frequency_left_slider
        (update_frequency_left false
           (set_frequency_left_entry (typed f) st)) = f)
  /\ (frequency_right fr = f
      /\ frequency_right_slider fr = frequency_right_slider st
      /\ frequency_right_slider
           (update_frequency_right false
              (set_frequency_right_entry (typed f) st)) = f)
  /\ (phase_left pl = p
      /\ phase_left_slider pl = phase_left_slider st
      /\ phase_left_slider
           (update_phase_left false (set_phase_left_entry (typed p) st)) = p)
  /\ (phase_right pr = p
      /\ phase_right_slider pr = phase_right_slider st
      /\ phase_right_slider
           (update_phase_right false (set_phase_right_entry (typed p) st))
         = p).
Proof.
  intros Hf Hp. cbv zeta. cbn [handle].
  rewrite (@update_frequency_left_accepted true
             (set_frequency_left_entry (Numeral (Finite f)) st) f eq_refl Hf).
  rewrite (@update_frequency_right_accepted true
             (set_frequency_right_entry (Numeral (Finite f)) st) f eq_refl Hf).
  rewrite (@update_phase_left_accepted true
             (set_phase_left_entry (Numeral (Finite p)) st) p eq_refl Hp).
  rewrite (@update_phase_right_accepted true
             (set_phase_right_entry (Numeral (Finite p)) st) p eq_refl Hp).
  rewrite (@update_frequency_left_accepted false
             (set_frequency_left_entry (Numeral (Finite f)) st) f eq_refl Hf).
  rewrite (@update_frequency_right_accepted false
             (set_frequency_right_entry (Numeral (Finite f)) st) f eq_refl Hf).
  rewrite (@update_phase_left_accepted false
             (set_phase_left_entry (Numeral (Finite p)) st) p eq_refl Hp).
  rewrite (@update_phase_right_accepted false
             (set_phase_right_entry (Numeral (Finite p)) st) p eq_refl Hp).
  rewrite frequency_left_slider_set_eq, frequency_right_slider_set_eq,
    phase_left_slider_set_eq, phase_right_slider_set_eq.
  rewrite (@clip_inside _ _ _ Hf), (@clip_inside _ _ _ Hp).
  repeat split.
Qed.

Lemma accepted_field_leaves_slider_witness :
  let st := handle 44100 (Return_frequency_left (Numeral (Finite 440)))
              (initial []) in
  frequency_left st = 440 /\ frequency_left_slider st = 100.
Proof.
  destruct (@accepted_field_leaves_slider 44100 440 90 (initial [])
              eq_refl eq_refl) as ((H1 & H2 & _) & _).
  split; [exact H1 | exact H2].
Defined.

(** ** Starting and stopping the stream *)

Lemma start_stream_outside (sampling_rate : positive) (dev : device) (st : App) :
  outside_stream (fst (start_stream sampling_rate dev st)) = outside_stream st.
Proof.
  unfold start_stream.
  destruct (stream st) as [[r c b [ | ]] | ]; destruct dev; reflexivity.
Qed.

Lemma stop_stream_outside (st : App) :
  outside_stream (stop_stream st) = outside_stream st.
Proof.
  unfold stop_stream.
  destruct (stream st) as [[r c b [ | ]] | ]; reflexivity.
Qed.

Lemma outside_stream_parameters (st st' : App) :
  outside_stream st' = outside_stream st -> parameters st' = parameters st.
Proof.
  intros H. change (parameters (outside_stream st') = parameters (outside_stream st)).
  now rewrite H.
Qed.

(** C10: whatever the state and whatever the device answers,
    [start_stream] and [stop_stream] leave the five tone parameters as they
    were; they change nothing but the stream handle and the two buttons, so
    the parameters are the same after any sequence of presses of Start and
    Stop. *)
Theorem start_stop_keep_parameters
    (sampling_rate : positive) (dev : device) (st : App)
    (presses : list (option device)) :
  parameters (fst (start_stream sampling_rate dev st)) = parameters st
  /\ outside_stream (fst (start_stream sampling_rate dev st))
     = outside_stream st
  /\ parameters (stop_stream st) = parameters st
  /\ outside_stream (stop_stream st) = outside_stream st
  /\ parameters (run sampling_rate (stream_events presses) st)
     = parameters st.
Proof.
  pose proof (start_stream_outside sampling_rate) as Hstart.
  pose proof stop_stream_outside as Hstop.
  repeat split; auto using outside_stream_parameters.
  revert st. induction presses as [ | [d | ] presses IH]; intros st.
  - reflexivity.
  - unfold run in *. simpl. rewrite IH.
    auto using outside_stream_parameters.
  - unfold run in *. simpl. rewrite IH.
    auto using outside_stream_parameters.
Qed.

(** ** Saved configurations *)

Lemma existsb_names (name : string) (rows : list configuration) :
  existsb (fun c => String.eqb (config_name c) name) rows = true
  <-> In name (map config_name rows).
Proof.
  rewrite existsb_exists, in_map_iff.
  split; intros (c & H1 & H2); exists c.
  - split; [now apply String.eqb_eq | exact H1].
  - split; [exact H2 | now apply String.eqb_eq].
Qed.

(** What [save] does to the table: one row more, of the current
    parameters, when the name is not empty and not in use; nothing
    otherwise. *)
Lemma save_rows (name : string) (st : App) :
  configurations (save name st)
  = (configurations st
     ++ (if String.eqb name "" then []
         else if existsb (fun c => String.eqb (config_name c) name)
                   (configurations st) then []
              else [saved_row name st]))%list
  /\ parameters (save name st) = parameters st.
Proof.
  unfold save.
  destruct (String.eqb name ""); [now rewrite app_nil_r | ].
  destruct (existsb _ (configurations st)); [now rewrite app_nil_r | ].
  split; reflexivity.
Qed.

(** No event removes or rewrites a row: the table after an event is the
    table before it, followed by at most one new row. *)
Lemma handle_rows (sampling_rate : positive) (e : event) (st : App) :
  exists added,
    configurations (handle sampling_rate e st)
    = (configurations st ++ added)%list
    /\ (added = []
        \/ exists name,
             e = Save name /\ name <> ""%string
             /\ ~ In name (names st) /\ added = [saved_row name st]).
Proof.
  destruct e; try rewrite handle_load; cbn [handle];
    unfold update_frequency_left_slider, update_frequency_right_slider,
      update_phase_left_slider, update_phase_right_slider;
    rewrite ?update_frequency_left_configurations,
      ?update_frequency_right_configurations,
      ?update_phase_left_configurations, ?update_phase_right_configurations,
      ?update_volume_configurations;
    try (exists []; split; [now rewrite app_nil_r | now left]).
  - destruct (save_rows name st) as [-> _].
    destruct (String.eqb name "") eqn:E1;
      [exists []; split; [reflexivity | now left] | ].
    destruct (existsb _ (configurations st)) eqn:E2;
      [exists []; split; [reflexivity | now left] | ].
    exists [saved_row name st]. split; [reflexivity | right].
    exists name. repeat split.
    + now apply String.eqb_neq.
    + unfold names. rewrite <- existsb_names. congruence.
  - exists []. rewrite app_nil_r. split; [ | now left].
    destruct (configurations st) as [ | c rows] eqn:E; [exact E | ].
    rewrite <- E. apply load_selected_config_frame.
  - exists []. rewrite app_nil_r. split; [ | now left].
    unfold start_stream.
    destruct (match stream st with None => true | Some s => negb (active s) end);
      destruct dev; reflexivity.
  - exists []. rewrite app_nil_r. split; [ | now left].
    unfold stop_stream.
    destruct (stream st) as [s | ]; [destruct (active s) | ]; reflexivity.
Qed.

Lemma run_rows (sampling_rate : positive) (events : list event) (st : App) :
  exists added,
    configurations (run sampling_rate events st)
    = (configurations st ++ added)%list.
Proof.
  revert st. induction events as [ | e events IH]; intros st.
  - exists []. now rewrite app_nil_r.
  - destruct (handle_rows sampling_rate e st) as (one & H1 & _).
    destruct (IH (handle sampling_rate e st)) as (more & H2).
    exists (one ++ more)%list. unfold run in *. simpl.
    now rewrite H2, H1, app_assoc.
Qed.

(** X6: nothing deletes or rewrites a saved configuration.  After any
    sequence of events every row of the table is still there, unchanged and
    at the same place; rows are only added at the end. *)
Theorem saved_rows_are_kept
    (sampling_rate : positive) (events : list event) (st : App)
    (i : nat) (d : configuration) :
  (i < List.length (configurations st))%nat ->
  nth i (configurations (run sampling_rate events st)) d
  = nth i (configurations st) d
  /\ (List.length (configurations st)
      <= List.length (configurations (run sampling_rate events st)))%nat.
Proof.
  intros Hi. destruct (run_rows sampling_rate events st) as (added & ->).
  split; [now apply app_nth1 | ]. rewrite length_app. lia.
Qed.

Lemma saved_rows_are_kept_witness :
  nth 0
    (configurations
       (run 44100 [Save "again"; Load [0%nat]; Move_volume 10]
          (initial [loud_row]))) loud_row
  = loud_row.
Proof.
  exact (proj1 (@saved_rows_are_kept 44100
                  [Save "again"; Load [0%nat]; Move_volume 10]
                  (initial [loud_row]) 0%nat loud_row ltac:(simpl; lia))).
Defined.

(** X7: the names of the saved configurations stay pairwise different.
    [save] refuses a name in use, so a table without a repeated name has
    none after any sequence of events. *)
Theorem names_stay_unique
    (sampling_rate : positive) (events : list event) (st : App) :
  NoDup (names st) -> NoDup (names (run sampling_rate events st)).
Proof.
  revert st. induction events as [ | e events IH]; intros st H.
  - exact H.
  - unfold run in *. simpl. apply IH.
    destruct (handle_rows sampling_rate e st)
      as (added & Hrows & [-> | (name & _ & _ & Hnew & ->)]);
      unfold names in *; rewrite Hrows.
    + now rewrite app_nil_r.
    + rewrite map_app. simpl.
      apply NoDup_app; [exact H | repeat constructor; intros [] | ].
      intros x Hx [<- | []]. contradiction.
Qed.

Lemma names_stay_unique_witness :
  NoDup
    (names
       (run 44100 [Save "calm"; Move_volume 80; Save "calm"; Save "loud"]
          (initial []))).
Proof.
  apply (@names_stay_unique 44100 _ (initial [])). constructor.
Defined.

Lemma find_skip {A : Type} (f : A -> bool) (l1 l2 : list A) :
  (forall a, In a l1 -> f a = false) -> find f (l1 ++ l2)%list = find f l2.
Proof.
  induction l1 as [ | a l1 IH]; intros H; simpl; [reflexivity | ].
  rewrite (H a) by now left. apply IH. intros b Hb. apply H. now right.
Qed.

(** With different names, looking a row up by its own name finds it. *)
Lemma find_by_name (rows : list configuration) (i : nat) (d : configuration) :
  NoDup (map config_name rows) ->
  (i < List.length rows)%nat ->
  find (fun c => String.eqb (config_name c) (config_name (nth i rows d))) rows
  = Some (nth i rows d).
Proof.
  revert i. induction rows as [ | c rows IH]; intros i Hnd Hi; simpl in *;
    [lia | ].
  inversion Hnd as [ | ? ? Hnotin Hnd']; subst.
  destruct i as [ | i].
  - now rewrite String.eqb_refl.
  - destruct (String.eqb (config_name c) (config_name (nth i rows d))) eqn:E.
    + apply String.eqb_eq in E. exfalso. apply Hnotin. rewrite E.
      apply in_map. apply nth_In. lia.
    + apply IH; [exact Hnd' | lia].
Qed.

(** X8: what is saved under a name is what loading that name brings back,
    as the sliders show it.  After [save] has stored the parameters under a
    new name, whatever events follow (the parameters may change, other rows
    may be saved), choosing that name in the load dialog, at whatever place
    the list shows it, stores the saved frequencies and phases clipped to
    their scales and rounded to one decimal, and the saved volume taken to
    a percentage, clipped to the scale and taken back.  A frequency saved
    as 100.04 comes back as 100. *)
Theorem save_then_load_restores
    (sampling_rate : positive) (name : string) (events : list event)
    (st : App) (listbox : list string) (i : nat) (rest : list nat) :
  name <> ""%string ->
  ~ In name (names st) ->
  nth i listbox ""%string = name ->
  let later := run sampling_rate events (save name st) in
  parameters (load_selected_config listbox (i :: rest) later)
  = shown_parameters (parameters st).
Proof.
  intros Hne Hnew Hi later.
  destruct (save_rows name st) as [Hsave _].
  apply String.eqb_neq in Hne. rewrite Hne in Hsave.
  assert (Hex : existsb (fun c => String.eqb (config_name c) name)
                  (configurations st) = false).
  { destruct (existsb _ (configurations st)) eqn:E; [ | reflexivity].
    apply existsb_names in E. contradiction. }
  rewrite Hex in Hsave.
  destruct (run_rows sampling_rate events (save name st))
    as (added & Hrows).
  fold later in Hrows. rewrite Hsave, <- app_assoc in Hrows.
  assert (F : find (fun c => String.eqb (config_name c) name)
                (configurations later) = Some (saved_row name st)).
  { rewrite Hrows, find_skip.
    - simpl. now rewrite String.eqb_refl.
    - intros c Hc. apply String.eqb_neq. intros E. apply Hnew.
      rewrite <- E. unfold names. now apply in_map. }
  destruct (@load_found listbox i rest later (saved_row name st)) as [Hp _].
  - rewrite Hi. exact F.
  - exact Hp.
Qed.

Lemma save_then_load_restores_witness :
  let st :=
    handle 44100 (Return_frequency_left (Numeral (Finite 100.04)))
      (initial []) in
  let later :=
    run 44100
      [Move_volume 80; Return_frequency_left (Numeral (Finite 440));
       Save "other"]
      (save "calm" st) in
  frequency_left st = 100.04
  /\ parameters (load_selected_config ["calm"; "other"]%string [0%nat] later)
     = shown_parameters (100.04, 104, 0, 0, 0.2).
Proof.
  split; [reflexivity | ].
  apply (@save_then_load_restores 44100 "calm"
           [Move_volume 80; Return_frequency_left (Numeral (Finite 440));
            Save "other"]
           (handle 44100 (Return_frequency_left (Numeral (Finite 100.04)))
              (initial []))
           ["calm"; "other"]%string 0%nat []).
  - discriminate.
  - intros [].
  - reflexivity.
Defined.

Lemma plot_waveforms_widgets (st : App) :
  let s := plot_waveforms st in
  (frequency_left_slider s, frequency_right_slider s, phase_left_slider s,
   phase_right_slider s, volume_slider s)
  = (frequency_left_slider st, frequency_right_slider st,
     phase_left_slider st, phase_right_slider st, volume_slider st)
  /\ (frequency_left_entry s, frequency_right_entry s, phase_left_entry s,
      phase_right_entry s)
     = (frequency_left_entry st, frequency_right_entry st,
        phase_left_entry st, phase_right_entry st)
  /\ canvas s = Some (current_plot s).
Proof. repeat split. Qed.

Lemma show_frequency_left_widgets (st : App) :
  let s := show_frequency_left st in
  (frequency_left_slider s, frequency_right_slider s, phase_left_slider s,
   phase_right_slider s, volume_slider s)
  = (clip 1 (frequency_left st) 20000, frequency_right_slider st,
     phase_left_slider st, phase_right_slider st, volume_slider st)
  /\ (frequency_left_entry s, frequency_right_entry s, phase_left_entry s,
      phase_right_entry s)
     = (shown_1f (clip 1 (frequency_left st) 20000),
        frequency_right_entry st, phase_left_entry st, phase_right_entry st).
Proof.
  unfold show_frequency_left. cbv zeta. rewrite frequency_left_slider_set_eq.
  split; reflexivity.
Qed.

Lemma show_frequency_right_widgets (st : App) :
  let s := show_frequency_right st in
  (frequency_left_slider s, frequency_right_slider s, phase_left_slider s,
   phase_right_slider s, volume_slider s)
  = (frequency_left_slider st, clip 1 (frequency_right st) 20000,
     phase_left_slider st, phase_right_slider st, volume_slider st)
  /\ (frequency_left_entry s, frequency_right_entry s, phase_left_entry s,
      phase_right_entry s)
     = (frequency_left_entry st,
        shown_1f (clip 1 (frequency_right st) 20000), phase_left_entry st,
        phase_right_entry st).
Proof.
  unfold show_frequency_right. cbv zeta. rewrite frequency_right_slider_set_eq.
  split; reflexivity.
Qed.

Lemma show_phase_left_widgets (st : App) :
  let s := show_phase_left st in
  (frequency_left_slider s, frequency_right_slider s, phase_left_slider s,
   phase_right_slider s, volume_slider s)
  = (frequency_left_slider st, frequency_right_slider st,
     clip 0 (phase_left st) 360, phase_right_slider st, volume_slider st)
  /\ (frequency_left_entry s, frequency_right_entry s, phase_left_entry s,
      phase_right_entry s)
     = (frequency_left_entry st, frequency_right_entry st,
        shown_1f (clip 0 (phase_left st) 360), phase_right_entry st).
Proof.
  unfold show_phase_left. cbv zeta. rewrite phase_left_slider_set_eq.
  split; reflexivity.
Qed.

Lemma show_phase_right_widgets (st : App) :
  let s := show_phase_right st in
  (frequency_left_slider s, frequency_right_slider s, phase_left_slider s,
   phase_right_slider s, volume_slider s)
  = (frequency_left_slider st, frequency_right_slider st,
     phase_left_slider st, clip 0 (phase_right st) 360, volume_slider st)
  /\ (frequency_left_entry s, frequency_right_entry s, phase_left_entry s,
      phase_right_entry s)
     = (frequency_left_entry st, frequency_right_entry st,
        phase_left_entry st, shown_1f (clip 0 (phase_right st) 360)).
Proof.
  unfold show_phase_right. cbv zeta. rewrite phase_right_slider_set_eq.
  split; reflexivity.
Qed.

Lemma show_volume_widgets (st : App) :
  let s := show_volume st in
  (frequency_left_slider s, frequency_right_slider s, phase_left_slider s,
   phase_right_slider s, volume_slider s)
  = (frequency_left_slider st, frequency_right_slider st,
     phase_left_slider st, phase_right_slider st,
     clip 0 (volume st * 100) 100)
  /\ (frequency_left_entry s, frequency_right_entry s, phase_left_entry s,
      phase_right_entry s)
     = (frequency_left_entry st, frequency_right_entry st,
        phase_left_entry st, phase_right_entry st).
Proof.
  unfold show_volume, volume_slider_set, update_volume. cbv zeta.
  change (volume_value_label (set_volume ?a (set_volume_slider ?b st)))
    with (volume_value_label st).
  destruct (volume_value_label st) eqn:E;
    cbn [volume_value_label set_volume set_volume_slider
           set_volume_value_label];
    rewrite ?E; split; reflexivity.
Qed.

Lemma widgets_inv (st : App) (a b c d e : Q) (t u v w : text) :
  (frequency_left_slider st, frequency_right_slider st, phase_left_slider st,
   phase_right_slider st, volume_slider st)
  = (a, b, c, d, e)
  /\ (frequency_left_entry st, frequency_right_entry st, phase_left_entry st,
      phase_right_entry st)
     = (t, u, v, w) ->
  (frequency_left_slider st = a /\ frequency_right_slider st = b
   /\ phase_left_slider st = c /\ phase_right_slider st = d
   /\ volume_slider st = e)
  /\ (frequency_left_entry st = t /\ frequency_right_entry st = u
      /\ phase_left_entry st = v /\ phase_right_entry st = w).
Proof. intros ([= -> -> -> -> ->] & [= -> -> -> ->]). repeat split. Qed.

(** The widgets after [update_ui_values]: each slider stands on its
    parameter clipped to the scale and each field shows that value to one
    decimal. *)
Lemma update_ui_values_widgets (st : App) :
  let st' := update_ui_values st in
  (frequency_left_slider st', frequency_right_slider st',
   phase_left_slider st', phase_right_slider st', volume_slider st')
  = (clip 1 (frequency_left st) 20000, clip 1 (frequency_right st) 20000,
     clip 0 (phase_left st) 360, clip 0 (phase_right st) 360,
     clip 0 (volume st * 100) 100)
  /\ (frequency_left_entry st', frequency_right_entry st',
      phase_left_entry st', phase_right_entry st')
     = (shown_1f (clip 1 (frequency_left st) 20000),
        shown_1f (clip 1 (frequency_right st) 20000),
        shown_1f (clip 0 (phase_left st) 360),
        shown_1f (clip 0 (phase_right st) 360))
  /\ canvas st' = Some (current_plot st').
Proof.
  cbv zeta. rewrite update_ui_values_steps.
  pose proof (show_frequency_left_parameters st) as P1.
  pose proof (show_frequency_left_widgets st) as W1.
  set (s1 := show_frequency_left st) in *. clearbody s1.
  pose proof (show_frequency_right_parameters s1) as P2.
  pose proof (show_frequency_right_widgets s1) as W2.
  set (s2 := show_frequency_right s1) in *. clearbody s2.
  pose proof (show_phase_left_parameters s2) as P3.
  pose proof (show_phase_left_widgets s2) as W3.
  set (s3 := show_phase_left s2) in *. clearbody s3.
  pose proof (show_phase_right_parameters s3) as P4.
  pose proof (show_phase_right_widgets s3) as W4.
  set (s4 := show_phase_right s3) in *. clearbody s4.
  pose proof (show_volume_widgets s4) as W5.
  set (s5 := show_volume s4) in *. clearbody s5.
  destruct (plot_waveforms_widgets s5) as (W6 & W7 & W8).
  cbv zeta in *.
  split; [rewrite W6 | split; [rewrite W7 | exact W8]].
  all: apply parameters_inv in P1, P2, P3, P4.
  all: apply widgets_inv in W1, W2, W3, W4, W5.
  all: destruct P1 as (A1 & A2 & A3 & A4 & A5).
  all: destruct P2 as (B1 & B2 & B3 & B4 & B5).
  all: destruct P3 as (C1 & C2 & C3 & C4 & C5).
  all: destruct P4 as (D1 & D2 & D3 & D4 & D5).
  all: destruct W1 as ((E1 & E2 & E3 & E4 & E5) & (F1 & F2 & F3 & F4)).
  all: destruct W2 as ((G1 & G2 & G3 & G4 & G5) & (H1 & H2 & H3 & H4)).
  all: destruct W3 as ((I1 & I2 & I3 & I4 & I5) & (J1 & J2 & J3 & J4)).
  all: destruct W4 as ((K1 & K2 & K3 & K4 & K5) & (L1 & L2 & L3 & L4)).
  all: destruct W5 as ((M1 & M2 & M3 & M4 & M5) & (N1 & N2 & N3 & N4)).
  all: congruence.
Qed.

(** X9: with different names in the table, choosing the name of row [i]
    in the load dialog, at whatever place the list shows it, installs that
    row as the sliders show it: each slider stands on the value of the row
    clipped to its scale (the volume as a percentage), each field shows
    that value to one decimal, the stored frequencies and phases are the
    numbers the fields show and the stored volume is the position of the
    volume slider over 100; the plot is redrawn, no dialog is shown and the
    table is untouched. *)
Theorem load_installs_selected_row
    (listbox : list string) (j : nat) (rest : list nat) (st : App)
    (i : nat) (d : configuration) :
  NoDup (names st) ->
  (i < List.length (configurations st))%nat ->
  let c := nth i (configurations st) d in
  nth j listbox ""%string = config_name c ->
  let st' := load_selected_config listbox (j :: rest) st in
  parameters st' = shown_parameters (config_parameters c)
  /\ dialogs st' = dialogs st
  /\ configurations st' = configurations st
  /\ (frequency_left_slider st', frequency_right_slider st',
      phase_left_slider st', phase_right_slider st', volume_slider st')
     = (clip 1 (config_frequency_left c) 20000,
        clip 1 (config_frequency_right c) 20000,
        clip 0 (config_phase_left c) 360, clip 0 (config_phase_right c) 360,
        clip 0 (config_volume c * 100) 100)
  /\ (frequency_left_entry st', frequency_right_entry st',
      phase_left_entry st', phase_right_entry st')
     = (shown_1f (clip 1 (config_frequency_left c) 20000),
        shown_1f (clip 1 (config_frequency_right c) 20000),
        shown_1f (clip 0 (config_phase_left c) 360),
        shown_1f (clip 0 (config_phase_right c) 360))
  /\ canvas st' = Some (current_plot st').
Proof.
  intros Hnd Hi c Hj. cbv zeta.
  assert (F : find (fun r => String.eqb (config_name r)
                               (nth j listbox ""%string))
                (configurations st) = Some c).
  { rewrite Hj. now apply find_by_name. }
  destruct (@load_found listbox j rest st c F) as (P & D & C & _).
  split; [exact P | ]. split; [exact D | ]. split; [exact C | ].
  unfold load_selected_config. rewrite F. cbv zeta.
  apply update_ui_values_widgets.
Qed.

Lemma load_installs_selected_row_witness :
  load_configuration (initial [loud_row; again_row])
  = (initial [loud_row; again_row], Some ["again"; "loud"]%string)
  /\ parameters
       (handle 44100 (Load [0%nat]) (initial [loud_row; again_row]))
     = shown_parameters (config_parameters again_row).
Proof.
  split; [reflexivity | ].
  refine (proj1 (@load_installs_selected_row ["again"; "loud"]%string 0%nat
                   [] (initial [loud_row; again_row]) 1%nat loud_row
                   _ _ _)).
  - repeat constructor; simpl; intuition discriminate.
  - simpl. lia.
  - reflexivity.
Defined.

(** ** The stream and its two buttons *)

(** Only Start and Stop touch the stream handle and the buttons. *)
Lemma handle_controls (sampling_rate : positive) (e : event) (st : App) :
  (exists dev, e = Start dev) \/ e = Stop
  \/ (stream (handle sampling_rate e st),
      start_button (handle sampling_rate e st),
      stop_button (handle sampling_rate e st))
     = (stream st, start_button st, stop_button st).
Proof.
  destruct e; try (left; eexists; reflexivity);
    try (right; left; reflexivity); right; right;
    try rewrite handle_load; cbn [handle];
    unfold update_frequency_left_slider, update_frequency_right_slider,
      update_phase_left_slider, update_phase_right_slider;
    try match goal with
        | |- context [update_frequency_left ?b ?s] =>
            exact (proj2 (update_frequency_left_frame b s))
        | |- context [update_frequency_right ?b ?s] =>
            exact (proj2 (update_frequency_right_frame b s))
        | |- context [update_phase_left ?b ?s] =>
            exact (proj2 (update_phase_left_frame b s))
        | |- context [update_phase_right ?b ?s] =>
            exact (proj2 (update_phase_right_frame b s))
        end.
  - unfold update_volume. cbv zeta.
    destruct (volume_value_label _); reflexivity.
  - unfold save. destruct (String.eqb name ""); [reflexivity | ].
    destruct (existsb _ (configurations st)); reflexivity.
  - destruct (configurations st) as [ | c rows]; [reflexivity | ].
    apply load_selected_config_frame.
Qed.

Lemma controls_agree_frame (st st' : App) :
  (stream st', start_button st', stop_button st')
  = (stream st, start_button st, stop_button st) ->
  controls_agree st' = controls_agree st.
Proof.
  intros [= H1 H2 H3]. unfold controls_agree, streaming.
  now rewrite H1, H2, H3.
Qed.

Lemma start_stream_controls_agree
    (sampling_rate : positive) (dev : device) (st : App) :
  controls_agree st = true ->
  controls_agree (fst (start_stream sampling_rate dev st)) = true.
Proof.
  unfold controls_agree, streaming, start_stream.
  destruct (stream st) as [[r c b [ | ]] | ] eqn:E; simpl; intros H.
  - now rewrite E.
  - destruct dev; simpl; rewrite ?E; simpl; try exact H; reflexivity.
  - destruct dev; simpl; rewrite ?E; simpl; try exact H; reflexivity.
Qed.

Lemma stop_stream_controls_agree (st : App) :
  controls_agree st = true -> controls_agree (stop_stream st) = true.
Proof.
  unfold controls_agree, streaming, stop_stream.
  destruct (stream st) as [[r c b [ | ]] | ] eqn:E; simpl; intros H;
    rewrite ?E; simpl; try exact H; reflexivity.
Qed.

Lemma handle_controls_agree (sampling_rate : positive) (e : event) (st : App) :
  controls_agree st = true ->
  controls_agree (handle sampling_rate e st) = true.
Proof.
  intros H.
  destruct (handle_controls sampling_rate e st) as [[dev ->] | [-> | F]].
  - now apply start_stream_controls_agree.
  - now apply stop_stream_controls_agree.
  - now rewrite (controls_agree_frame _ _ F).
Qed.

(** X10: the buttons follow the stream.  From a state where Start is
    enabled and Stop disabled exactly when no stream runs (the initial state
    is one), every sequence of events, including starts the device refuses,
    ends in such a state: Stop is enabled and Start disabled exactly while
    the stream is active. *)
Theorem controls_follow_stream
    (sampling_rate : positive) (events : list event) (st : App) :
  controls_agree st = true ->
  controls_agree (run sampling_rate events st) = true.
Proof.
  revert st. induction events as [ | e events IH]; intros st H.
  - exact H.
  - unfold run in *. simpl. apply IH. now apply handle_controls_agree.
Qed.

Lemma controls_follow_stream_witness :
  controls_agree
    (run 44100
       [Start start_fails; Start device_ok; Move_volume 30; Start open_fails;
        Stop; Stop; Start device_ok]
       (initial []))
  = true.
Proof.
  apply (@controls_follow_stream 44100 _ (initial [])). reflexivity.
Defined.

(** X11: a cycle of Start and Stop.  On a state without a running stream,
    Stop changes nothing; a Start the device accepts opens a stream of two
    channels and 2048 frames at the sampling rate, running, with Start
    disabled and Stop enabled; a second Start then changes nothing, whatever
    the device would answer; Stop makes the stream inactive and swaps the
    buttons back, a second Stop changes nothing, and a new Start runs
    again. *)
Theorem start_stop_cycle
    (sampling_rate : positive) (dev : device) (st : App) :
  streaming st = false ->
  let started := fst (start_stream sampling_rate device_ok st) in
  let stopped := stop_stream started in
  stop_stream st = st
  /\ snd (start_stream sampling_rate device_ok st) = None
  /\ stream started
     = Some {| samplerate := sampling_rate; channels := 2;
               blocksize := 2048; active := true |}
  /\ (start_button started, stop_button started) = (disabled, normal)
  /\ start_stream sampling_rate dev started = (started, None)
  /\ streaming stopped = false
  /\ (start_button stopped, stop_button stopped) = (normal, disabled)
  /\ stop_stream stopped = stopped
  /\ streaming (fst (start_stream sampling_rate device_ok stopped)) = true.
Proof.
  unfold streaming, start_stream, stop_stream.
  destruct (stream st) as [[r c b [ | ]] | ]; simpl; intros H;
    try discriminate H; destruct dev; repeat split.
Qed.

Lemma start_stop_cycle_witness :
  streaming
    (fst (start_stream 44100 device_ok
            (stop_stream (fst (start_stream 44100 device_ok (initial []))))))
  = true.
Proof.
  destruct (@start_stop_cycle 44100 device_ok (initial []) eq_refl)
    as (_ & _ & _ & _ & _ & _ & _ & _ & H).
  exact H.
Defined.

(** X12: a start the device refuses.  Without a running stream: when the
    stream cannot be opened, [PortAudioError] leaves [start_stream] and the
    state is exactly as before; when the opened stream cannot be started,
    the error leaves [start_stream] too, the new handle is kept but
    inactive and both buttons are as before.  In both cases a later Start
    the device accepts runs the stream. *)
Theorem refused_start_can_be_retried (sampling_rate : positive) (st : App) :
  streaming st = false ->
  let unopened := start_stream sampling_rate open_fails st in
  let unstarted := start_stream sampling_rate start_fails st in
  unopened = (st, Some PortAudioError)
  /\ snd unstarted = Some PortAudioError
  /\ streaming (fst unstarted) = false
  /\ (start_button (fst unstarted), stop_button (fst unstarted))
     = (start_button st, stop_button st)
  /\ outside_stream (fst unstarted) = outside_stream st
  /\ streaming (fst (start_stream sampling_rate device_ok (fst unopened)))
     = true
  /\ streaming (fst (start_stream sampling_rate device_ok (fst unstarted)))
     = true.
Proof.
  unfold streaming, start_stream.
  destruct (stream st) as [[r c b [ | ]] | ] eqn:E; simpl; intros H;
    try discriminate H; rewrite ?E; simpl; repeat split;
    rewrite ?E; reflexivity.
Qed.

Lemma refused_start_can_be_retried_witness :
  start_stream 44100 open_fails (initial [])
  = (initial [], Some PortAudioError).
Proof.
  exact (proj1 (@refused_start_can_be_retried 44100 (initial []) eq_refl)).
Defined.

(** ** The volume label and the dialogs *)

(** On a number that is not negative, [int] is the floor. *)
Lemma int_floor (x : Q) : 0 <= x -> int x = Qfloor x.
Proof.
  destruct x as [n d]. unfold Qle, int, Qfloor. simpl. intros H.
  apply Z.quot_div_nonneg; lia.
Qed.

(** X19: the volume label shows the whole part of the percentage.  For a
    slider position from 0 to 100 and an existing label, the label after
    [update_volume] shows the integer [n] with [n <= val < n + 1], between 0
    and 100: the position is cut, not rounded. *)
Theorem volume_label_is_whole_part (val : Q) (old : Z) (st : App) :
  volume_value_label st = Some old ->
  between 0 val 100 = true ->
  exists n : Z,
    volume_value_label (update_volume val st) = Some n
    /\ (0 <= n <= 100)%Z
    /\ inject_Z n <= val /\ val < inject_Z n + 1.
Proof.
  intros Hl Hv. apply between_spec in Hv. destruct Hv as [H0 H100].
  exists (Qfloor val). split.
  - unfold update_volume. simpl. rewrite Hl. simpl.
    now rewrite int_floor.
  - split; [ | apply Qfloor_between].
    apply Qfloor_resp_le in H0, H100.
    change 0 with (inject_Z 0) in H0. change 100 with (inject_Z 100) in H100.
    rewrite Qfloor_Z in H0, H100. lia.
Qed.

Lemma volume_label_is_whole_part_witness :
  exists n : Z,
    volume_value_label (update_volume 99.9 (initial [])) = Some n
    /\ (0 <= n <= 100)%Z
    /\ inject_Z n <= 99.9 /\ 99.9 < inject_Z n + 1.
Proof.
  exact (@volume_label_is_whole_part 99.9 20%Z (initial []) eq_refl eq_refl).
Defined.

(** X20: a dialog no larger than the main window opens inside it and
    centred on it.  When the width and height of the dialog are at most
    those of the main window, the position [center_dialog] computes puts the
    dialog within the main window on both axes, and its centre within one
    half pixel of the centre of the main window (the two floored halvings
    lose at most that). *)
Theorem dialog_opens_inside_the_window (root dialog : geometry) :
  (0 <= winfo_width dialog <= winfo_width root)%Z ->
  (0 <= winfo_height dialog <= winfo_height root)%Z ->
  let x := fst (center_dialog root dialog) in
  let y := snd (center_dialog root dialog) in
  (winfo_x root <= x
   /\ x + winfo_width dialog <= winfo_x root + winfo_width root
   /\ -1 <= (2 * x + winfo_width dialog)
            - (2 * winfo_x root + winfo_width root) <= 1)%Z
  /\ (winfo_y root <= y
      /\ y + winfo_height dialog <= winfo_y root + winfo_height root
      /\ -1 <= (2 * y + winfo_height dialog)
               - (2 * winfo_y root + winfo_height root) <= 1)%Z.
Proof.
  intros Hw Hh. unfold center_dialog. cbv zeta. cbn [fst snd].
  pose proof (Z.div_mod (winfo_width root) 2 ltac:(lia)).
  pose proof (Z.mod_pos_bound (winfo_width root) 2 ltac:(lia)).
  pose proof (Z.div_mod (winfo_width dialog) 2 ltac:(lia)).
  pose proof (Z.mod_pos_bound (winfo_width dialog) 2 ltac:(lia)).
  pose proof (Z.div_mod (winfo_height root) 2 ltac:(lia)).
  pose proof (Z.mod_pos_bound (winfo_height root) 2 ltac:(lia)).
  pose proof (Z.div_mod (winfo_height dialog) 2 ltac:(lia)).
  pose proof (Z.mod_pos_bound (winfo_height dialog) 2 ltac:(lia)).
  lia.
Qed.

Lemma dialog_opens_inside_the_window_witness :
  center_dialog
    {| winfo_x := 560; winfo_y := 90; winfo_width := 800;
       winfo_height := 900 |}
    {| winfo_x := 0; winfo_y := 0; winfo_width := 300;
       winfo_height := 150 |}
  = (810, 465)%Z
  /\ (560 <= 810 /\ 810 + 300 <= 560 + 800)%Z.
Proof.
  split; [reflexivity | ].
  destruct (@dialog_opens_inside_the_window
              {| winfo_x := 560; winfo_y := 90; winfo_width := 800;
                 winfo_height := 900 |}
              {| winfo_x := 0; winfo_y := 0; winfo_width := 300;
                 winfo_height := 150 |}
              ltac:(simpl; lia) ltac:(simpl; lia)) as ((H1 & H2 & _) & _).
  split; [exact H1 | exact H2].
Defined.

(** ** The audio callback *)

Section Lists.

Context {A B C : Type}.

Lemma map_fst_combine (a : list A) (b : list B) :
  List.length a = List.length b -> map fst (combine a b) = a.
Proof.
  revert b. induction a as [ | x a IH]; intros [ | y b] H; simpl in *;
    try discriminate; [reflexivity | ].
  f_equal. apply IH. now injection H.
Qed.

Lemma combine_maps (f : C -> A) (g : C -> B) (l : list C) :
  combine (map f l) (map g l) = map (fun x => (f x, g x)) l.
Proof.
  induction l as [ | x l IH]; simpl; [reflexivity | now rewrite IH].
Qed.

End Lists.

Local Open Scope R_scope.

(** The floored remainder of two integers is the integer remainder. *)
Lemma remainder_integers (a : Z) (b : positive) :
  remainder (IZR a) (IZR (Zpos b)) = IZR (a mod Zpos b).
Proof.
  unfold remainder.
  assert (Hb : 0 < IZR (Zpos b)) by (apply IZR_lt; lia).
  pose proof (Z.div_mod a (Zpos b) ltac:(lia)) as Hdm.
  pose proof (Z.mod_pos_bound a (Zpos b) ltac:(lia)) as [Hlo Hhi].
  apply IZR_le in Hlo. apply IZR_lt in Hhi.
  assert (Ha : IZR a = IZR (Zpos b) * IZR (a / Zpos b) + IZR (a mod Zpos b)).
  { rewrite <- mult_IZR, <- plus_IZR. now rewrite <- Hdm. }
  assert (Hq : IZR a / IZR (Zpos b)
               = IZR (a / Zpos b) + IZR (a mod Zpos b) / IZR (Zpos b)).
  { rewrite Ha at 1. field. lra. }
  assert (Hfrac : 0 <= IZR (a mod Zpos b) / IZR (Zpos b) < 1).
  { split.
    - apply Rmult_le_pos; [exact Hlo | ].
      left. now apply Rinv_0_lt_compat.
    - apply (Rmult_lt_reg_r (IZR (Zpos b))); [exact Hb | ].
      unfold Rdiv. rewrite Rmult_assoc, Rinv_l by lra. lra. }
  rewrite <- (Int_part_spec (IZR a / IZR (Zpos b)) (a / Zpos b)).
  - lra.
  - rewrite Hq. lra.
Qed.

(** With as many frames as the buffer has rows, the callback returns, and
    every row is rewritten with the frame of its index. *)
Lemma audio_callback_frames
    (sampling_rate : positive) (st : App) (outdata : list (R * R))
    (dac : R) :
  audio_callback sampling_rate st outdata (List.length outdata) dac
  = Returned
      (map (frame_at sampling_rate st dac) (seq 0 (List.length outdata))).
Proof.
  unfold audio_callback, assign_left, assign_right, broadcast, arange.
  rewrite !length_map, length_seq, Nat.eqb_refl.
  rewrite length_combine, !length_map, length_seq, Nat.min_id, Nat.eqb_refl.
  rewrite map_fst_combine by (now rewrite !length_map, length_seq).
  rewrite combine_maps, !map_map. reflexivity.
Qed.


Lemma nth_map_seq {A : Type} (f : nat -> A) (n i : nat) (d : A) :
  (i < n)%nat -> nth i (map f (seq 0 n)) d = f i.
Proof.
  intros H. rewrite (nth_indep _ d (f 0%nat)) by
    (now rewrite length_map, length_seq).
  rewrite map_nth, seq_nth by exact H. reflexivity.
Qed.

(** The sample time of row [i] when the driver reports the time of sample
    number [startSample]. *)
Lemma sample_time
    (sampling_rate : positive) (startSample : Z) (i : nat) :
  remainder
    (INR i + IZR startSample / IZR (Zpos sampling_rate)
             * IZR (Zpos sampling_rate))
    (IZR (Zpos sampling_rate))
  = IZR ((startSample + Z.of_nat i) mod Zpos sampling_rate).
Proof.
  assert (Hb : 0 < IZR (Zpos sampling_rate)) by (apply IZR_lt; lia).
  rewrite <- remainder_integers. f_equal.
  rewrite plus_IZR, <- INR_IZR_INZ. field. lra.
Qed.

Lemma Q2R_whole (n : Z) : Q2R (inject_Z n) = IZR n.
Proof. unfold Q2R. simpl. field. Qed.



(** The sine forgets whole turns. *)
Lemma sin_turns (x : R) (k : Z) : sin (x + 2 * IZR k * PI) = sin x.
Proof.
  destruct (Z_le_gt_dec 0 k) as [Hk | Hk].
  - rewrite <- (Z2Nat.id k) by exact Hk.
    rewrite <- INR_IZR_INZ. apply sin_period.
  - rewrite <- (sin_period (x + 2 * IZR k * PI) (Z.to_nat (- k))).
    rewrite INR_IZR_INZ, Z2Nat.id by lia.
    rewrite opp_IZR. f_equal. ring.
Qed.






(** *** At the wrap of the sample time *)












(** *** Shapes *)


Lemma broadcast_incl (v : list R) (rows : nat) (column : list R) :
  broadcast v rows = Some column -> incl column v.
Proof.
  unfold broadcast.
  destruct (Nat.eqb (List.length v) rows).
  - intros [= <-]. apply incl_refl.
  - destruct (Nat.eqb (List.length v) 1) eqn:E; [ | discriminate].
    intros [= <-]. apply Nat.eqb_eq in E.
    destruct v as [ | x [ | y v]]; try discriminate.
    intros y Hy. apply repeat_spec in Hy. subst y. now left.
Qed.




(** *** Amplitude *)

(** Every sample of a returned block is the volume times a half times a
    sine. *)
Lemma audio_callback_samples
    (sampling_rate : positive) (st : App) (outdata : list (R * R))
    (frames : nat) (dac : R) (block : list (R * R)) :
  audio_callback sampling_rate st outdata frames dac = Returned block ->
  forall frame, In frame block ->
    (exists x, fst frame = Q2R (volume st) * 0.5 * sin x)
    /\ (exists y, snd frame = Q2R (volume st) * 0.5 * sin y).
Proof.
  unfold audio_callback, assign_left, assign_right.
  destruct (broadcast _ (List.length outdata)) as [left | ] eqn:B1;
    [ | discriminate].
  destruct (broadcast _ (List.length (combine left (map snd outdata))))
    as [right | ] eqn:B2; [ | discriminate].
  intros [= <-] [l r] Hin. simpl. split.
  - apply in_combine_l in Hin. apply in_map_iff in Hin.
    destruct Hin as ([l' r'] & Hl & Hin). simpl in Hl. subst l'.
    apply in_combine_l in Hin. apply (broadcast_incl _ _ B1) in Hin.
    apply in_map_iff in Hin. destruct Hin as (t & <- & _). eauto.
  - apply in_combine_r in Hin. apply (broadcast_incl _ _ B2) in Hin.
    apply in_map_iff in Hin. destruct Hin as (t & <- & _). eauto.
Qed.

Lemma volume_bounds (st : App) :
  in_range st = true -> 0 <= Q2R (volume st) <= 1.
Proof.
  intros H. apply in_range_spec in H. destruct H as (_ & _ & _ & _ & H).
  apply between_spec in H. destruct H as [H0 H1].
  apply Qle_Rle in H0, H1. unfold Q2R at 1 in H0. unfold Q2R at 2 in H1.
  simpl in H0, H1. lra.
Qed.

Lemma scaled_sine_bound (v x : R) :
  0 <= v -> - (v / 2) <= v * 0.5 * sin x <= v / 2.
Proof.
  intros Hv. pose proof (SIN_bound x) as [Hlo Hhi]. nra.
Qed.

(** C3: with the parameters in range, the callback on a buffer of its
    frame count returns, and every sample of every block it returns, in
    either channel, lies in [-volume/2, volume/2], hence in [-0.5, 0.5]. *)
Theorem audio_callback_amplitude
    (sampling_rate : positive) (st : App) (outdata : list (R * R))
    (dac : R) :
  in_range st = true ->
  (exists block,
      audio_callback sampling_rate st outdata (List.length outdata) dac
      = Returned block)
  /\ forall (frames : nat) (block : list (R * R)),
       audio_callback sampling_rate st outdata frames dac = Returned block ->
       Forall (within (Q2R (volume st) / 2)) block
       /\ Forall (within 0.5) block.
Proof.
  intros H. apply volume_bounds in H. destruct H as [H0 H1].
  split; [eexists; apply audio_callback_frames | ].
  intros frames block Hret.
  pose proof (audio_callback_samples _ _ _ _ _ Hret) as Hs.
  split; apply Forall_forall; intros frame Hin;
    destruct (Hs frame Hin) as [[x Hx] [y Hy]];
    pose proof (scaled_sine_bound x H0); pose proof (scaled_sine_bound y H0);
    unfold within; rewrite Hx, Hy; lra.
Qed.

Lemma audio_callback_amplitude_witness :
  exists block,
    audio_callback 44100 (initial []) [(0, 0); (0, 0)] 2 0 = Returned block
    /\ Forall (within (Q2R 0.2 / 2)) block.
Proof.
  destruct (@audio_callback_amplitude 44100 (initial []) [(0, 0); (0, 0)] 0
              eq_refl) as [[block Hret] Hall].
  exists block. split; [exact Hret | ].
  exact (proj1 (Hall 2%nat block Hret)).
Defined.

(** ** The plot *)

(** The number of points of the plot: a twentieth of the sampling rate,
    rounded down. *)
Lemma plot_points (sampling_rate : positive) :
  Z.to_nat (int (inject_Z (Zpos sampling_rate) * 0.05))
  = Z.to_nat (Zpos sampling_rate / 20).
Proof.
  f_equal. unfold int. simpl Qnum. simpl Qden.
  rewrite Z.quot_div_nonneg by lia.
  rewrite Pos2Z.inj_mul. change 100%Z with (20 * 5)%Z.
  now rewrite Z.div_mul_cancel_r by lia.
Qed.

(** The curves of the plot, point by point. *)
Lemma waveforms_points (sampling_rate : positive) (st : App) :
  let n := Z.to_nat (Zpos sampling_rate / 20) in
  let time := fun i : nat => INR i * ((Q2R 0.05 - 0) / INR n) + 0 in
  waveforms sampling_rate st
  = (map time (seq 0 n),
     map (fun i =>
            0.5 * sin (2 * PI * Q2R (frequency_left st) * time i
                       + Q2R (phase_left st) * PI / 180)) (seq 0 n),
     map (fun i =>
            0.5 * sin (2 * PI * Q2R (frequency_right st) * time i
                       + Q2R (phase_right st) * PI / 180)) (seq 0 n)).
Proof.
  intros n time. unfold waveforms, linspace, arange.
  rewrite plot_points. fold n. rewrite !map_map. reflexivity.
Qed.

(** When the rate is a multiple of 20, the times of the plot are the
    sample times [i / sampling_rate]. *)
Lemma plot_time (sampling_rate : positive) (i : nat) :
  (20 | Zpos sampling_rate)%Z ->
  INR i * ((Q2R 0.05 - 0) / INR (Z.to_nat (Zpos sampling_rate / 20))) + 0
  = INR i / IZR (Zpos sampling_rate).
Proof.
  intros [q Hq].
  assert (Hpos : (0 < q)%Z) by lia.
  rewrite Hq, Z.div_mul by lia.
  rewrite (INR_IZR_INZ (Z.to_nat q)), Z2Nat.id by lia.
  rewrite mult_IZR. apply IZR_lt in Hpos.
  unfold Q2R. simpl. field. lra.
Qed.

(** A sample time below the rate is not wrapped. *)
Lemma remainder_small (sampling_rate : positive) (i : nat) :
  (Z.of_nat i < Zpos sampling_rate)%Z ->
  remainder (INR i + 0 * IZR (Zpos sampling_rate)) (IZR (Zpos sampling_rate))
  = INR i.
Proof.
  intros H.
  replace (INR i + 0 * IZR (Zpos sampling_rate)) with (IZR (Z.of_nat i))
    by (rewrite <- INR_IZR_INZ; lra).
  rewrite remainder_integers, Z.mod_small by lia.
  now rewrite INR_IZR_INZ.
Qed.

(** C9, as the code has it: the plot draws the wave without the volume.
    When the sampling rate is a multiple of 20 (44100 is), the plot has
    [sampling_rate / 20] points, its time [i] is [i / sampling_rate], and
    the frame [i] the callback writes at driver time 0 is the volume times
    the two plotted values. *)
Theorem plot_is_callback_without_volume
    (sampling_rate : positive) (st : App) (outdata : list (R * R))
    (i : nat) :
  (20 | Zpos sampling_rate)%Z ->
  (i < Z.to_nat (Zpos sampling_rate / 20))%nat ->
  (i < List.length outdata)%nat ->
  let t := fst (fst (waveforms sampling_rate st)) in
  let wave1 := snd (fst (waveforms sampling_rate st)) in
  let wave2 := snd (waveforms sampling_rate st) in
  exists block,
    audio_callback sampling_rate st outdata (List.length outdata) 0
    = Returned block
    /\ List.length t = Z.to_nat (Zpos sampling_rate / 20)
    /\ nth i t 0 = INR i / IZR (Zpos sampling_rate)
    /\ nth i block (0, 0)
       = (Q2R (volume st) * nth i wave1 0, Q2R (volume st) * nth i wave2 0).
Proof.
  intros Hdiv Hplot Hi t wave1 wave2.
  assert (Hb : 0 < IZR (Zpos sampling_rate)) by (apply IZR_lt; lia).
  assert (Hsmall : (Z.of_nat i < Zpos sampling_rate)%Z).
  { pose proof (Z.mul_div_le (Zpos sampling_rate) 20 ltac:(lia)).
    assert (0 <= Zpos sampling_rate / 20)%Z by (apply Z.div_pos; lia).
    lia. }
  exists (map (frame_at sampling_rate st 0) (seq 0 (List.length outdata))).
  split; [apply audio_callback_frames | ].
  unfold t, wave1, wave2. rewrite waveforms_points. cbv zeta. simpl fst.
  simpl snd.
  split; [now rewrite length_map, length_seq | ].
  rewrite !nth_map_seq by assumption.
  rewrite plot_time by exact Hdiv.
  split; [reflexivity | ].
  unfold frame_at. rewrite remainder_small by exact Hsmall.
  f_equal; rewrite Rmult_assoc; do 2 f_equal; f_equal; field; lra.
Qed.

Lemma plot_is_callback_without_volume_witness :
  exists block,
    audio_callback 44100 (initial []) [(0, 0); (0, 0)] 2 0 = Returned block
    /\ nth 1 block (0, 0)
       = (Q2R 0.2 * nth 1 (snd (fst (waveforms 44100 (initial [])))) 0,
          Q2R 0.2 * nth 1 (snd (waveforms 44100 (initial []))) 0).
Proof.
  assert (Hdiv : (20 | 44100)%Z) by (exists 2205%Z; reflexivity).
  assert (Hplot : (1 < Z.to_nat (44100 / 20))%nat)
    by (apply Nat.ltb_lt; vm_compute; reflexivity).
  destruct (@plot_is_callback_without_volume 44100 (initial [])
              [(0, 0); (0, 0)] 1%nat Hdiv Hplot ltac:(simpl; lia))
    as (block & Hret & _ & _ & Hnth).
  exists block. split; [exact Hret | exact Hnth].
Defined.

(** C9 fails as stated: after the phase of the left channel is set to 90
    degrees, the first point of the left curve of the plot is 1/2, while
    the first left sample of the callback at sample 0 is 1/10, the volume
    0.2 times that. *)
Lemma plot_differs_from_callback :
  let st := handle 44100 (Return_phase_left (Numeral (Finite 90))) (initial []) in
  nth 0 (snd (fst (waveforms 44100 st))) 0 = 1 / 2
  /\ audio_callback 44100 st [(0, 0)] 1 0 = Returned [(1 / 10, 0)]
  /\ 1 / 2 <> 1 / 10.
Proof.
  intros st.
  assert (Hp : parameters st = (100, 104, 90, 0, 0.2)%Q)
    by (vm_compute; reflexivity).
  clearbody st. unfold parameters in Hp.
  injection Hp as Hfl Hfr Hpl Hpr Hv.
  assert (Hphase : forall x, x = 0 -> sin (x + Q2R 90 * PI / 180) = 1).
  { intros x ->. rewrite <- sin_PI2. f_equal. unfold Q2R. simpl. lra. }
  split; [ | split; [ | lra]].
  - rewrite waveforms_points. cbv zeta. cbn [fst snd].
    rewrite nth_map_seq by (apply Nat.ltb_lt; vm_compute; reflexivity).
    rewrite Hpl, Hphase; [lra | ]. cbn [INR]. lra.
  - change 1%nat with (List.length [(0, 0)]) at 1.
    rewrite (audio_callback_frames 44100 st [(0, 0)] 0).
    cbn [List.length seq map]. unfold frame_at.
    rewrite (@remainder_small 44100 0) by reflexivity.
    rewrite Hpl, Hpr, Hv, Hphase by (cbn [INR]; lra).
    replace (2 * PI * Q2R (frequency_right st) * INR 0 / IZR 44100
             + Q2R 0 * PI / 180) with 0
      by (cbn [INR];
          replace (Q2R 0) with 0 by (unfold Q2R; cbn [Qnum Qden]; lra);
          unfold Rdiv; ring).
    rewrite sin_0. do 2 f_equal. unfold Q2R. cbn [Qnum Qden].
    f_equal; lra.
Qed.

(** ** The wrap of the sample time *)




(** The wrapped sample time, as the sample number less whole seconds. *)
Lemma wrapped_time (sampling_rate : positive) (n : Z) :
  IZR (n mod Zpos sampling_rate)
  = IZR n - IZR (n / Zpos sampling_rate) * IZR (Zpos sampling_rate).
Proof.
  pose proof (Z.div_mod n (Zpos sampling_rate) ltac:(lia)) as H.
  rewrite H at 2. rewrite plus_IZR, mult_IZR. ring.
Qed.

(** X14: with whole-number frequencies the wrap of the sample time cannot
    be heard.  When both frequencies are integers, the frame of row [i] at
    sample number [startSample] is the sine at the sample number itself,
    [startSample + i], not reduced modulo the sampling rate. *)
Theorem whole_frequencies_ignore_the_wrap
    (sampling_rate : positive) (st : App) (outdata : list (R * R))
    (startSample : Z) (i : nat) (left right : Z) :
  (i < List.length outdata)%nat ->
  (frequency_left st == inject_Z left)%Q ->
  (frequency_right st == inject_Z right)%Q ->
  let n := IZR (startSample + Z.of_nat i) in
  exists block,
    audio_callback sampling_rate st outdata (List.length outdata)
      (IZR startSample / IZR (Zpos sampling_rate))
    = Returned block
    /\ nth i block (0, 0)
       = (Q2R (volume st) * 0.5
          * sin (2 * PI * IZR left * n / IZR (Zpos sampling_rate)
                 + Q2R (phase_left st) * PI / 180),
          Q2R (volume st) * 0.5
          * sin (2 * PI * IZR right * n / IZR (Zpos sampling_rate)
                 + Q2R (phase_right st) * PI / 180)).
Proof.
  intros Hi Hl Hr n.
  assert (Hb : 0 < IZR (Zpos sampling_rate)) by (apply IZR_lt; lia).
  apply Qeq_eqR in Hl, Hr.
  assert (Zl : Q2R (inject_Z left) = IZR left)
    by (unfold Q2R; simpl; field).
  assert (Zr : Q2R (inject_Z right) = IZR right)
    by (unfold Q2R; simpl; field).
  exists (map (frame_at sampling_rate st
                 (IZR startSample / IZR (Zpos sampling_rate)))
            (seq 0 (List.length outdata))).
  split; [apply audio_callback_frames | ].
  rewrite nth_map_seq by exact Hi. unfold frame_at.
  rewrite sample_time, wrapped_time, Hl, Hr, Zl, Zr. fold n.
  set (q := ((startSample + Z.of_nat i) / Zpos sampling_rate)%Z).
  f_equal; f_equal.
  - rewrite <- (sin_turns _ (left * q)). f_equal.
    rewrite mult_IZR. field. lra.
  - rewrite <- (sin_turns _ (right * q)). f_equal.
    rewrite mult_IZR. field. lra.
Qed.

Lemma whole_frequencies_ignore_the_wrap_witness :
  exists block,
    audio_callback 44100 (initial []) [(0, 0); (0, 0)] 2
      (IZR 88199 / IZR 44100)
    = Returned block
    /\ nth 1 block (0, 0)
       = (Q2R 0.2 * 0.5
          * sin (2 * PI * IZR 100 * IZR 88200 / IZR 44100
                 + Q2R 0 * PI / 180),
          Q2R 0.2 * 0.5
          * sin (2 * PI * IZR 104 * IZR 88200 / IZR 44100
                 + Q2R 0 * PI / 180)).
Proof.
  exact (@whole_frequencies_ignore_the_wrap 44100 (initial [])
           [(0, 0); (0, 0)] 88199%Z 1%nat 100%Z 104%Z
           ltac:(simpl; lia) ltac:(reflexivity) ltac:(reflexivity)).
Defined.

(** X15: with a frequency of a whole number and a half the tone changes
    sign at the wrap.  When the left frequency is [k + 1/2], the left sample
    of a row whose sample number lies in the second second,
    [sampling_rate <= startSample + i < 2 * sampling_rate], is the opposite
    of the sine at that sample number: the wave does not go on from the
    first second. *)
Theorem half_frequency_flips_at_the_wrap
    (sampling_rate : positive) (st : App) (outdata : list (R * R))
    (startSample : Z) (i : nat) (k : Z) :
  (i < List.length outdata)%nat ->
  (frequency_left st == inject_Z k + (1 # 2))%Q ->
  (Zpos sampling_rate <= startSample + Z.of_nat i < 2 * Zpos sampling_rate)%Z ->
  let n := IZR (startSample + Z.of_nat i) in
  exists block,
    audio_callback sampling_rate st outdata (List.length outdata)
      (IZR startSample / IZR (Zpos sampling_rate))
    = Returned block
    /\ fst (nth i block (0, 0))
       = - (Q2R (volume st) * 0.5
            * sin (2 * PI * Q2R (frequency_left st) * n
                   / IZR (Zpos sampling_rate)
                   + Q2R (phase_left st) * PI / 180)).
Proof.
  intros Hi Hf Hn n.
  assert (Hb : 0 < IZR (Zpos sampling_rate)) by (apply IZR_lt; lia).
  apply Qeq_eqR in Hf. rewrite Q2R_plus in Hf.
  assert (Zk : Q2R (inject_Z k) = IZR k) by (unfold Q2R; simpl; field).
  assert (Zh : Q2R (1 # 2) = 1 / 2) by (unfold Q2R; simpl; field).
  rewrite Zk, Zh in Hf.
  assert (Hq : ((startSample + Z.of_nat i) / Zpos sampling_rate = 1)%Z).
  { symmetry. apply (Z.div_unique _ _ 1
                       (startSample + Z.of_nat i - Zpos sampling_rate)); lia. }
  exists (map (frame_at sampling_rate st
                 (IZR startSample / IZR (Zpos sampling_rate)))
            (seq 0 (List.length outdata))).
  split; [apply audio_callback_frames | ].
  rewrite nth_map_seq by exact Hi. unfold frame_at. cbn [fst].
  rewrite sample_time, wrapped_time, Hq. fold n.
  rewrite Ropp_mult_distr_r. f_equal. rewrite <- neg_sin.
  match goal with
  | |- sin ?w = sin _ => rewrite <- (sin_turns w (k + 1))
  end.
  f_equal. rewrite plus_IZR, Hf. field. lra.
Qed.

Lemma half_frequency_flips_at_the_wrap_witness :
  let st := set_frequency_left 100.5 (initial []) in
  exists block,
    audio_callback 44100 st [(0, 0)] 1 (IZR 44100 / IZR 44100)
    = Returned block
    /\ fst (nth 0 block (0, 0))
       = - (Q2R 0.2 * 0.5
            * sin (2 * PI * Q2R 100.5 * IZR 44100 / IZR 44100
                   + Q2R 0 * PI / 180)).
Proof.
  exact (@half_frequency_flips_at_the_wrap 44100
           (set_frequency_left 100.5 (initial [])) [(0, 0)] 44100%Z 0%nat
           100%Z ltac:(simpl; lia) ltac:(reflexivity) ltac:(simpl; lia)).
Defined.

(** ** Phase and volume in the callback *)

(** X16: a full turn of phase cannot be heard.  Adding 360 degrees to the
    left or to the right phase leaves the result of the callback as it is;
    in particular the phases 0 and 360, both accepted by the handlers, give
    the same sound. *)
Theorem full_turn_of_phase_is_silent
    (sampling_rate : positive) (st : App) (outdata : list (R * R))
    (frames : nat) (dac : R) :
  audio_callback sampling_rate (set_phase_left (phase_left st + 360) st)
    outdata frames dac
  = audio_callback sampling_rate st outdata frames dac
  /\ audio_callback sampling_rate (set_phase_right (phase_right st + 360) st)
       outdata frames dac
     = audio_callback sampling_rate st outdata frames dac.
Proof.
  assert (T : forall (p : Q) (x : R),
             sin (x + Q2R (p + 360) * PI / 180) = sin (x + Q2R p * PI / 180)).
  { intros p x. rewrite <- (sin_turns (x + Q2R p * PI / 180) 1). f_equal.
    rewrite Q2R_plus. change 360%Q with (inject_Z 360).
    rewrite Q2R_whole. field. }
  unfold audio_callback. cbv zeta. simpl.
  split.
  - rewrite (map_ext _ _ (fun t => f_equal (Rmult _) (T (phase_left st) _))).
    reflexivity.
  - rewrite (map_ext
               (fun t => Q2R (volume st) * 0.5
                         * sin (2 * PI * Q2R (frequency_right st) * t
                                / IZR (Zpos sampling_rate)
                                + Q2R (phase_right st + 360) * PI / 180))
               _ (fun t => f_equal (Rmult _) (T (phase_right st) _))).
    reflexivity.
Qed.

Lemma update_volume_volume (val : Q) (st : App) :
  volume (update_volume val st) = (val / 100)%Q.
Proof.
  unfold update_volume. simpl. now destruct (volume_value_label st).
Qed.

(** X17: the volume slider at 0 mutes.  After [update_volume(0)] the
    callback, on a buffer of its frame count, writes zero in both channels
    of every row. *)
Theorem volume_zero_is_silence
    (sampling_rate : positive) (st : App) (outdata : list (R * R))
    (dac : R) :
  audio_callback sampling_rate (update_volume 0 st) outdata
    (List.length outdata) dac
  = Returned (repeat (0, 0) (List.length outdata)).
Proof.
  rewrite audio_callback_frames.
  assert (V : Q2R (volume (update_volume 0 st)) = 0).
  { rewrite update_volume_volume. unfold Q2R. simpl. field. }
  f_equal. generalize 0%nat at 1. 
  induction (List.length outdata) as [ | n IH]; intros k; simpl;
    [reflexivity | ].
  rewrite IH. f_equal. unfold frame_at. rewrite V. f_equal; ring.
Qed.

(** ** The plotted curves *)

(** X18: the curves fit the axes.  For every sampling rate and every
    state, the plot has [sampling_rate / 20] points (rounded down), the
    three arrays have that length, the times lie in [0, 0.05) and both
    waves lie in [-0.5, 0.5], inside the limits -0.6 and 0.6 of the axes. *)
Theorem plot_fits_the_axes (sampling_rate : positive) (st : App) :
  let t := fst (fst (waveforms sampling_rate st)) in
  let wave1 := snd (fst (waveforms sampling_rate st)) in
  let wave2 := snd (waveforms sampling_rate st) in
  List.length t = Z.to_nat (Zpos sampling_rate / 20)
  /\ List.length wave1 = List.length t
  /\ List.length wave2 = List.length t
  /\ Forall (fun x => 0 <= x < 0.05) t
  /\ Forall (fun y => - 0.5 <= y <= 0.5) wave1
  /\ Forall (fun y => - 0.5 <= y <= 0.5) wave2.
Proof.
  cbv zeta. rewrite waveforms_points. cbv zeta. cbn [fst snd].
  rewrite !length_map, length_seq.
  repeat split; apply Forall_forall; intros x Hx;
    apply in_map_iff in Hx; destruct Hx as (i & <- & Hi);
    try (pose proof (SIN_bound
                       (2 * PI * Q2R (frequency_left st)
                        * (INR i * ((Q2R 0.05 - 0)
                                    / INR (Z.to_nat (Zpos sampling_rate / 20)))
                           + 0)
                        + Q2R (phase_left st) * PI / 180)); lra);
    try (pose proof (SIN_bound
                       (2 * PI * Q2R (frequency_right st)
                        * (INR i * ((Q2R 0.05 - 0)
                                    / INR (Z.to_nat (Zpos sampling_rate / 20)))
                           + 0)
                        + Q2R (phase_right st) * PI / 180)); lra).
  apply in_seq in Hi. destruct Hi as [_ Hi]. simpl in Hi.
  assert (Hn : 0 < INR (Z.to_nat (Zpos sampling_rate / 20)))
    by (apply lt_0_INR; lia).
  replace (INR i * ((0.05 - 0) / INR (Z.to_nat (Zpos sampling_rate / 20))) + 0)
    with (0.05 * (INR i / INR (Z.to_nat (Zpos sampling_rate / 20))))
    by (field; lra).
  assert (0 <= INR i / INR (Z.to_nat (Zpos sampling_rate / 20))).
  { apply Rmult_le_pos; [apply pos_INR | ].
    left. now apply Rinv_0_lt_compat. }
  assert (INR i / INR (Z.to_nat (Zpos sampling_rate / 20)) < 1).
  { apply (Rmult_lt_reg_r (INR (Z.to_nat (Zpos sampling_rate / 20))));
      [exact Hn | ].
    unfold Rdiv. rewrite Rmult_assoc, Rinv_l, Rmult_1_r, Rmult_1_l by lra.
    now apply lt_INR. }
  lra.
Qed.

Local Close Scope R_scope.
